(** * f3d: window back-end selection, option synchronisation and option parsing

    A shallow embedding of [window_impl] (library/src/window_impl.cxx) and of
    [F3DOptions] (F3DOptions.cxx).

    - Preprocessor symbols are fields of a [build_config]; every [#if] of the
      source is an [if] on that record.
    - VTK objects are a class name plus a store of the arguments last passed
      to each of their methods.
    - [double] is IEEE 754 binary64, as the executable [spec_float] model of
      the Standard Library.
    - Methods of [window_impl] run in a small monad that threads the window,
      collects the calls made on the wrapped objects and can fail the way the
      C++ does (exception, failed [assert], null dereference). *)

From Stdlib Require Import ZArith Bool List.
From Stdlib Require Import Floats.SpecFloat.
From stdpp Require Import gmap strings list.

Local Open Scope string_scope.
Local Open Scope list_scope.
Local Open Scope Z_scope.

(* ================================================================== *)
(** * Doubles *)

Definition double : Type := spec_float.

Definition dbl_prec : Z := 53.
Definition dbl_emax : Z := 1024.

(** [x / y] on doubles. *)
Definition ddiv (x y : double) : double := SFdiv dbl_prec dbl_emax x y.

(** [x > y] on doubles; false as soon as one side is a NaN. *)
Definition dgt (x y : double) : bool := SFltb y x.

(** [x < y] on doubles. *)
Definition dlt (x y : double) : bool := SFltb x y.

Definition dzero : double := S754_zero false.
Definition done_ : double := S754_finite false 4503599627370496 (-52).

(** The binary64 value the literal [1e-7] denotes, 0x1.ad7f29abcaf48p-24. *)
Definition homogeneousThreshold : double :=
  S754_finite false 7555786372591432 (-76).

Definition point3_t : Type := (double * double * double)%type.
Definition color_t : Type := (double * double * double)%type.

(* ================================================================== *)
(** * Build configuration *)

(** The classes of VTK's render-window family that window_impl.cxx names,
    with the bases they derive from. *)
Inductive vtkClass : Type :=
| vtkObjectBase
| vtkObject
| vtkWindow
| vtkRenderWindow
| vtkOpenGLRenderWindow
| vtkGenericOpenGLRenderWindow
| vtkExternalOpenGLRenderWindow
| vtkEGLRenderWindow
| vtkOSOpenGLRenderWindow
| vtkXOpenGLRenderWindow
| vtkWin32OpenGLRenderWindow
| vtkCocoaRenderWindow
| vtkWebAssemblyOpenGLRenderWindow
| vtkF3DNoRenderWindow.

(** The preprocessor symbols window_impl.cxx tests. [default_window_class]
    is the class [vtkRenderWindow::New()] resolves to through VTK's object
    factory in this build. *)
Record build_config : Type := {
  F3D_MODULE_EXTERNAL_RENDERING : bool;
  VTK_OPENGL_HAS_EGL : bool;
  VTK_USE_X : bool;
  VTK_VERSION_NUMBER : Z;
  _WIN32 : bool;
  __ANDROID__ : bool;
  __APPLE__ : bool;
  __EMSCRIPTEN__ : bool;
  NDEBUG : bool;
  default_window_class : vtkClass
}.

(** VTK's macro: [10000000000ULL * major + 100000000ULL * minor + build]. *)
Definition VTK_VERSION_CHECK (major minor build : Z) : Z :=
  10000000000 * major + 100000000 * minor + build.

Definition vtk_at_least (cfg : build_config) (major minor build : Z) : bool :=
  VTK_VERSION_CHECK major minor build <=? VTK_VERSION_NUMBER cfg.

(* ================================================================== *)
(** * VTK run-time type information *)

Definition GetClassName (c : vtkClass) : string :=
  match c with
  | vtkObjectBase => "vtkObjectBase"
  | vtkObject => "vtkObject"
  | vtkWindow => "vtkWindow"
  | vtkRenderWindow => "vtkRenderWindow"
  | vtkOpenGLRenderWindow => "vtkOpenGLRenderWindow"
  | vtkGenericOpenGLRenderWindow => "vtkGenericOpenGLRenderWindow"
  | vtkExternalOpenGLRenderWindow => "vtkExternalOpenGLRenderWindow"
  | vtkEGLRenderWindow => "vtkEGLRenderWindow"
  | vtkOSOpenGLRenderWindow => "vtkOSOpenGLRenderWindow"
  | vtkXOpenGLRenderWindow => "vtkXOpenGLRenderWindow"
  | vtkWin32OpenGLRenderWindow => "vtkWin32OpenGLRenderWindow"
  | vtkCocoaRenderWindow => "vtkCocoaRenderWindow"
  | vtkWebAssemblyOpenGLRenderWindow => "vtkWebAssemblyOpenGLRenderWindow"
  | vtkF3DNoRenderWindow => "vtkF3DNoRenderWindow"
  end.

(** The [vtkTypeMacro] parent of each class. *)
Definition superclass (c : vtkClass) : option vtkClass :=
  match c with
  | vtkObjectBase => None
  | vtkObject => Some vtkObjectBase
  | vtkWindow => Some vtkObject
  | vtkRenderWindow => Some vtkWindow
  | vtkOpenGLRenderWindow => Some vtkRenderWindow
  | vtkGenericOpenGLRenderWindow => Some vtkOpenGLRenderWindow
  | vtkExternalOpenGLRenderWindow => Some vtkGenericOpenGLRenderWindow
  | vtkEGLRenderWindow => Some vtkOpenGLRenderWindow
  | vtkOSOpenGLRenderWindow => Some vtkOpenGLRenderWindow
  | vtkXOpenGLRenderWindow => Some vtkOpenGLRenderWindow
  | vtkWin32OpenGLRenderWindow => Some vtkOpenGLRenderWindow
  | vtkCocoaRenderWindow => Some vtkOpenGLRenderWindow
  | vtkWebAssemblyOpenGLRenderWindow => Some vtkOpenGLRenderWindow
  | vtkF3DNoRenderWindow => Some vtkRenderWindow
  end.

(** [IsTypeOf]: compare the class name, then ask the parent. *)
Fixpoint IsTypeOf (depth : nat) (c : vtkClass) (name : string) : bool :=
  if String.eqb (GetClassName c) name then true
  else match depth, superclass c with
       | S d, Some p => IsTypeOf d p name
       | _, _ => false
       end.

(** The deepest class sits seven levels below [vtkObjectBase]. *)
Definition IsA (c : vtkClass) (name : string) : bool := IsTypeOf 8 c name.

Arguments IsA : simpl never.

(* ================================================================== *)
(** * Wrapped objects *)

Inductive SplatType : Type := SPHERE | GAUSSIAN.

Inductive value : Type :=
| VBool (b : bool)
| VInt (n : Z)
| VDouble (d : double)
| VString (s : string)
| VDoubles (v : list double)
| VSplat (t : SplatType).

Definition VColor (c : color_t) : list value :=
  let '(r, g, b) := c in [VDouble r; VDouble g; VDouble b].

(** The renderer a render window or a camera refers to. A window owns one
    renderer, [Internals->Renderer], and hands out references to it. *)
Inductive renderer_ref : Type := InternalsRenderer.

Record render_window : Type := {
  rw_class : vtkClass;
  rw_props : gmap string (list value);
  rw_renderers : list renderer_ref
}.

Definition New (c : vtkClass) : render_window :=
  {| rw_class := c; rw_props := ∅; rw_renderers := [] |}.

Definition rw_invoke (m : string) (args : list value) (rw : render_window)
  : render_window :=
  {| rw_class := rw_class rw;
     rw_props := <[m := args]> (rw_props rw);
     rw_renderers := rw_renderers rw |}.

Definition AddRenderer (r : renderer_ref) (rw : render_window) : render_window :=
  {| rw_class := rw_class rw;
     rw_props := rw_props rw;
     rw_renderers := rw_renderers rw ++ [r] |}.

Definition GetFirstRenderer (rw : render_window) : option renderer_ref :=
  head (rw_renderers rw).

(** [vtkOpenGLRenderWindow::SafeDownCast]: the window itself when it is an
    OpenGL render window, a null pointer otherwise. *)
Definition SafeDownCast_OpenGL (rw : render_window) : option render_window :=
  if IsA (rw_class rw) "vtkOpenGLRenderWindow" then Some rw else None.

(** Modelled from the spec: [vtkF3DRenderer] (vtkF3DRenderer.cxx is not part
    of the sources at hand). The spec describes option synchronisation as
    copying each field "onto the renderer via one setter call per field": the
    renderer keeps, per method, the arguments it was last called with. The
    methods without argument ([Initialize], [UpdateLights], [UpdateActors])
    are kept the same way, as having been run. *)
Record vtkF3DRenderer : Type := {
  rd_props : gmap string (list value)
}.

Definition rd_invoke (m : string) (args : list value) (r : vtkF3DRenderer)
  : vtkF3DRenderer :=
  {| rd_props := <[m := args]> (rd_props r) |}.

Definition NewRenderer : vtkF3DRenderer := {| rd_props := ∅ |}.

Arguments rd_invoke : simpl never.

(* ================================================================== *)
(** * Effects *)

Inductive target : Type :=
| OnRenderer
| OnRenWin
| OnCamera
| OnWindowToImageFilter
| OnImageExport
| OnSystemTools
| OnDwm
| OnLog.

#[global] Instance target_eq_dec : EqDecision target.
Proof. solve_decision. Defined.

(** What a method does to the objects it wraps, in program order. A
    floating-point division is an event as well, with its operands. *)
Inductive event : Type :=
| Call (t : target) (method : string) (args : list value)
| Division (numerator divisor : double).

Inductive exception : Type :=
| no_window_exception (what : string)
| std_out_of_range.

(** How a piece of C++ ends: normally, by an exception, by a failed
    [assert], or by dereferencing a null pointer. *)
Inductive result (A : Type) : Type :=
| Done (a : A)
| Thrown (e : exception)
| AssertionFailed
| NullDereference.

Arguments Done {A} a.
Arguments Thrown {A} e.
Arguments AssertionFailed {A}.
Arguments NullDereference {A}.

(** A computation: its value and the events it produced, or a failure. *)
Definition Eff (A : Type) : Type := result (A * list event).

Definition eff_ret {A} (a : A) : Eff A := Done (a, []).

Definition eff_bind {A B} (f : A → Eff B) (m : Eff A) : Eff B :=
  match m with
  | Done (a, t1) =>
      match f a with
      | Done (b, t2) => Done (b, t1 ++ t2)
      | Thrown e => Thrown e
      | AssertionFailed => AssertionFailed
      | NullDereference => NullDereference
      end
  | Thrown e => Thrown e
  | AssertionFailed => AssertionFailed
  | NullDereference => NullDereference
  end.

#[global] Instance Eff_ret : MRet Eff := @eff_ret.
#[global] Instance Eff_bind : MBind Eff := @eff_bind.

Definition emit (e : event) : Eff unit := Done (tt, [e]).
Definition throw {A} (e : exception) : Eff A := Thrown e.

Definition log_debug (msg : string) : Eff unit :=
  emit (Call OnLog "debug" [VString msg]).

(** The events of a computation that ended normally. *)
Definition trace {A} (m : Eff A) : list event :=
  match m with Done (_, t) => t | _ => [] end.

(** A call on the render window: updates it and leaves an event. *)
Definition on_renwin (m : string) (args : list value) (rw : render_window)
  : Eff render_window :=
  _ ← emit (Call OnRenWin m args); mret (rw_invoke m args rw).

(** A call on the renderer. *)
Definition on_renderer (m : string) (args : list value) (r : vtkF3DRenderer)
  : Eff vtkF3DRenderer :=
  _ ← emit (Call OnRenderer m args); mret (rd_invoke m args r).

(** A sequence of renderer calls, in order. *)
Fixpoint on_renderer_seq (cs : list (string * list value)) (r : vtkF3DRenderer)
  : Eff vtkF3DRenderer :=
  match cs with
  | [] => mret r
  | (m, args) :: cs' => r' ← on_renderer m args r; on_renderer_seq cs' r'
  end.

(* ================================================================== *)
(** * Options *)

(** The fields of [f3d::options] that window_impl.cxx reads. options.h is
    not part of the sources at hand: each field has the type of the use
    made of it ([model_point_sprites_size] initialises a [const int],
    [scene_camera_index] answers [has_value()], colours answer [data()]). *)
Record options : Type := {
  scene_up_direction : string;
  scene_camera_index : option Z;
  scene_camera_orthographic : bool;
  interactor_axis : bool;
  interactor_trackball : bool;
  interactor_invert_zoom : bool;
  model_point_sprites_enable : bool;
  model_point_sprites_size : Z;
  model_point_sprites_type : string;
  model_color_rgb : color_t;
  model_color_opacity : double;
  model_color_texture : string;
  model_material_roughness : double;
  model_material_metallic : double;
  model_material_texture : string;
  model_emissive_texture : string;
  model_emissive_factor : color_t;
  model_normal_texture : string;
  model_normal_scale : double;
  model_matcap_texture : string;
  model_scivis_enable : bool;
  model_scivis_cells : bool;
  model_scivis_array_name : string;
  model_scivis_component : Z;
  model_scivis_range : list double;
  model_scivis_colormap : list double;
  model_volume_enable : bool;
  model_volume_inverse : bool;
  render_line_width : double;
  render_point_size : double;
  render_show_edges : bool;
  render_backface_type : string;
  render_raytracing_enable : bool;
  render_raytracing_samples : Z;
  render_raytracing_denoise : bool;
  render_effect_ambient_occlusion : bool;
  render_effect_anti_aliasing : bool;
  render_effect_tone_mapping : bool;
  render_effect_translucency_support : bool;
  render_effect_final_shader : string;
  render_background_color : color_t;
  render_background_blur : bool;
  render_background_blur_coc : double;
  render_background_skybox : bool;
  render_light_intensity : double;
  render_hdri_file : string;
  render_hdri_ambient : bool;
  render_grid_unit : double;
  render_grid_subdivisions : Z;
  render_grid_absolute : bool;
  render_grid_enable : bool;
  render_grid_color : color_t;
  ui_fps : bool;
  ui_filename : bool;
  ui_filename_info : string;
  ui_metadata : bool;
  ui_cheatsheet : bool;
  ui_dropzone : bool;
  ui_dropzone_info : string;
  ui_font_file : string;
  ui_scalar_bar : bool
}.

(* ================================================================== *)
(** * The window *)

(** [window::Type]. *)
Inductive window_Type : Type :=
| NONE
| EXTERNAL
| GLX
| WGL
| COCOA
| EGL
| OSMESA
| WASM
| UNKNOWN.

#[global] Instance window_Type_eq_dec : EqDecision window_Type.
Proof. solve_decision. Defined.

(** [context::function], a [std::function] from symbol names to addresses;
    [None] is the empty function. *)
Definition context_function : Type := option (string → Z).

Record camera_impl : Type := {
  VTKRenderer : option renderer_ref
}.

Definition SetVTKRenderer (r : renderer_ref) (c : camera_impl) : camera_impl :=
  {| VTKRenderer := Some r |}.

(** [window_impl::internals], once the constructor has run: [RenWin] is no
    longer null. [Options] is the value of the referenced options object. *)
Record window_impl : Type := {
  Camera : camera_impl;
  RenWin : render_window;
  Renderer : vtkF3DRenderer;
  Options : options;
  CachePath : string;
  GetProcAddress : context_function
}.

Definition with_RenWin (rw : render_window) (w : window_impl) : window_impl :=
  {| Camera := Camera w; RenWin := rw; Renderer := Renderer w;
     Options := Options w; CachePath := CachePath w;
     GetProcAddress := GetProcAddress w |}.

Definition with_Renderer (r : vtkF3DRenderer) (w : window_impl) : window_impl :=
  {| Camera := Camera w; RenWin := RenWin w; Renderer := r;
     Options := Options w; CachePath := CachePath w;
     GetProcAddress := GetProcAddress w |}.

Definition with_CachePath (p : string) (w : window_impl) : window_impl :=
  {| Camera := Camera w; RenWin := RenWin w; Renderer := Renderer w;
     Options := Options w; CachePath := p;
     GetProcAddress := GetProcAddress w |}.

(** ** Windows theme probe *)

(** What [std::stoi] makes of a string. *)
Inductive stoi_result : Type :=
| stoi_value (n : Z)
| stoi_invalid_argument
| stoi_out_of_range.

(** The registry values [UpdateTheme] reads: [None] when the read fails,
    [CurrentBuildNumber] as [std::stoi] converts it. *)
Record host_env : Type := {
  reg_CurrentBuildNumber : option stoi_result;
  reg_AppsUseLightTheme : option Z;
  reg_SystemUsesLightTheme : option Z
}.

Definition DWMWA_USE_IMMERSIVE_DARK_MODE : Z := 20.
Definition IMMERSIVE_DARK_MODE_SUPPORTED_SINCE : Z := 19041.

(** Only [std::invalid_argument] is caught. *)
Definition IsWindowsBuildNumberOrGreater (env : host_env) (buildNumber : Z)
  : Eff bool :=
  match reg_CurrentBuildNumber env with
  | Some (stoi_value n) => mret (buildNumber <=? n)
  | Some stoi_invalid_argument =>
      _ ← log_debug "Error parsing CurrentBuildNumber"; mret false
  | Some stoi_out_of_range => throw std_out_of_range
  | None => _ ← log_debug "Error opening registry key."; mret false
  end.

Definition IsWindowsInDarkMode (env : host_env) : bool :=
  match reg_AppsUseLightTheme env with
  | Some v => v =? 0
  | None =>
      match reg_SystemUsesLightTheme env with
      | Some v => v =? 0
      | None => false
      end
  end.

Definition UpdateTheme (cfg : build_config) (env : host_env) : Eff unit :=
  if _WIN32 cfg then
    supported ← IsWindowsBuildNumberOrGreater env IMMERSIVE_DARK_MODE_SUPPORTED_SINCE;
    if supported : bool then
      emit (Call OnDwm "DwmSetWindowAttribute"
              [VInt DWMWA_USE_IMMERSIVE_DARK_MODE; VBool (IsWindowsInDarkMode env)])
    else mret tt
  else mret tt.

(** ** Construction *)

Definition assert (b : bool) : Eff unit :=
  if b then mret tt else AssertionFailed.

(** [p->...] on a pointer that may be null. *)
Definition deref {A} (p : option A) : Eff A :=
  match p with
  | Some a => mret a
  | None => NullDereference
  end.

(** The [if]/[else if] chain of the constructor: the value of
    [Internals->RenWin] after it, null when no branch assigned it. *)
Definition select_render_window (cfg : build_config) (type : option window_Type)
  : Eff (option render_window) :=
  match type with
  | Some NONE => mret (Some (New vtkF3DNoRenderWindow))
  | Some EXTERNAL =>
      if F3D_MODULE_EXTERNAL_RENDERING cfg then
        extWin ← on_renwin "AutomaticWindowPositionAndResizeOff" []
                   (New vtkExternalOpenGLRenderWindow);
        mret (Some extWin)
      else
        throw (no_window_exception
          "Window type is external but F3D_MODULE_EXTERNAL_RENDERING is not enabled")
  | Some EGL =>
      if VTK_OPENGL_HAS_EGL cfg && vtk_at_least cfg 9 3 20240914 then
        if __ANDROID__ cfg then
          rw ← on_renwin "SetWindowInfo" [VString "jni"] (New vtkEGLRenderWindow);
          mret (Some rw)
        else mret (Some (New vtkEGLRenderWindow))
      else
        throw (no_window_exception
          "Window type is EGL but VTK EGL support is not enabled")
  | Some OSMESA =>
      if vtk_at_least cfg 9 3 20240914 then
        mret (Some (New vtkOSOpenGLRenderWindow))
      else
        throw (no_window_exception
          "Window type is OSMesa but VTK OSMesa support is not enabled")
  | Some GLX =>
      if VTK_USE_X cfg && vtk_at_least cfg 9 3 20240914 then
        mret (Some (New vtkXOpenGLRenderWindow))
      else
        throw (no_window_exception
          "Window type is GLX but VTK GLX support is not enabled")
  | Some WGL =>
      if _WIN32 cfg then mret (Some (New vtkWin32OpenGLRenderWindow))
      else mret None
  | Some _ => mret None
  | None => mret (Some (New (default_window_class cfg)))
  end.

(** The block under [VTK_VERSION_NUMBER >= VTK_VERSION_CHECK(9, 3, 20240914)]:
    [oglRenWin] aliases [RenWin], so what is done to it is done to [RenWin]. *)
Definition setup_opengl (cfg : build_config) (getProcAddress : context_function)
    (renwin : option render_window) : Eff (option render_window) :=
  match renwin ≫= SafeDownCast_OpenGL with
  | Some oglRenWin =>
      oglRenWin ← (if bool_decide (is_Some getProcAddress)
                   then on_renwin "SetOpenGLSymbolLoader" [] oglRenWin
                   else mret oglRenWin);
      oglRenWin ← (if F3D_MODULE_EXTERNAL_RENDERING cfg
                      && IsA (rw_class oglRenWin) "vtkExternalOpenGLRenderWindow"
                   then on_renwin "vtkOpenGLRenderWindow::OpenGLInit" [] oglRenWin
                   else mret oglRenWin);
      mret (Some oglRenWin)
  | None => mret renwin
  end.

(** [window_impl::Initialize]. *)
Definition Initialize (r : vtkF3DRenderer) : Eff vtkF3DRenderer :=
  on_renderer "Initialize" [] r.

(** [window_impl::window_impl]. The [assert] is compiled out under
    [NDEBUG]. *)
Definition window_impl_ctor (cfg : build_config) (env : host_env)
    (opts : options) (type : option window_Type) (offscreen : bool)
    (getProcAddress : context_function) : Eff window_impl :=
  renwin ← select_render_window cfg type;
  _ ← (if NDEBUG cfg then mret tt else assert (bool_decide (is_Some renwin)));
  renwin ← (if vtk_at_least cfg 9 3 20240914
            then setup_opengl cfg getProcAddress renwin
            else mret renwin);
  rw ← deref renwin;
  rw ← (if vtk_at_least cfg 9 3 20240606
        then on_renwin "EnableTranslucentSurfaceOn" [] rw
        else mret rw);
  rw ← on_renwin "SetMultiSamples" [VInt 0] rw;
  rw ← on_renwin "SetOffScreenRendering" [VBool offscreen] rw;
  rw ← on_renwin "SetWindowName" [VString "f3d"] rw;
  _ ← emit (Call OnRenWin "AddRenderer" []);
  let rw := AddRenderer InternalsRenderer rw in
  _ ← emit (Call OnCamera "SetVTKRenderer" []);
  let camera := SetVTKRenderer InternalsRenderer {| VTKRenderer := None |} in
  renderer ← Initialize NewRenderer;
  _ ← UpdateTheme cfg env;
  _ ← log_debug ("VTK window class type is " +:+ GetClassName (rw_class rw));
  mret {| Camera := camera; RenWin := rw; Renderer := renderer;
          Options := opts; CachePath := "";
          GetProcAddress := getProcAddress |}.

(** [window_impl::getType]. *)
Definition getType (cfg : build_config) (w : window_impl) : window_Type :=
  let c := rw_class (RenWin w) in
  if IsA c "vtkOSOpenGLRenderWindow" then OSMESA
  else if VTK_USE_X cfg && IsA c "vtkXOpenGLRenderWindow" then GLX
  else if _WIN32 cfg && IsA c "vtkWin32OpenGLRenderWindow" then WGL
  else if __APPLE__ cfg && IsA c "vtkCocoaRenderWindow" then COCOA
  else if VTK_OPENGL_HAS_EGL cfg && IsA c "vtkEGLRenderWindow" then EGL
  else if __EMSCRIPTEN__ cfg && IsA c "vtkWebAssemblyOpenGLRenderWindow" then WASM
  else if IsA c "vtkF3DNoRenderWindow" then NONE
  else UNKNOWN.

(** Whether the constructor has a compiled branch that creates a window of
    the requested type: the [#if] condition of that branch. [NONE] has no
    condition; [COCOA], [WASM] and [UNKNOWN] have no branch. *)
Definition compiled_in (cfg : build_config) (t : window_Type) : bool :=
  match t with
  | NONE => true
  | EXTERNAL => F3D_MODULE_EXTERNAL_RENDERING cfg
  | EGL => VTK_OPENGL_HAS_EGL cfg && vtk_at_least cfg 9 3 20240914
  | OSMESA => vtk_at_least cfg 9 3 20240914
  | GLX => VTK_USE_X cfg && vtk_at_least cfg 9 3 20240914
  | WGL => _WIN32 cfg
  | COCOA | WASM | UNKNOWN => false
  end.

(** The theme probe of the constructor comes back: it is not run, or
    [std::stoi] does not overflow on the build number. *)
Definition theme_probe_returns (cfg : build_config) (env : host_env) : bool :=
  negb (_WIN32 cfg)
  || match reg_CurrentBuildNumber env with
     | Some stoi_out_of_range => false
     | _ => true
     end.

(** ** Simple accessors and mutators *)

Definition setSize (width height : Z) (w : window_impl) : Eff window_impl :=
  rw ← on_renwin "SetSize" [VInt width; VInt height] (RenWin w);
  mret (with_RenWin rw w).

Definition setWindowName (windowName : string) (w : window_impl)
  : Eff window_impl :=
  rw ← on_renwin "SetWindowName" [VString windowName] (RenWin w);
  mret (with_RenWin rw w).

Definition setAnimationNameInfo (name : string) (w : window_impl)
  : Eff window_impl :=
  r ← on_renderer "SetAnimationnameInfo" [VString name] (Renderer w);
  mret (with_Renderer r w).

Definition InitializeUpVector (w : window_impl) : Eff window_impl :=
  r ← on_renderer "InitializeUpVector"
        [VString (scene_up_direction (Options w))] (Renderer w);
  mret (with_Renderer r w).

(** [window_impl::SetCachePath]. *)
Definition SetCachePath (cachePath : string) (w : window_impl) : window_impl :=
  with_CachePath cachePath w.

(** [internals::GetCachePath]: creates the directory, returns its path. *)
Definition GetCachePath (w : window_impl) : Eff string :=
  _ ← emit (Call OnSystemTools "MakeDirectory" [VString (CachePath w)]);
  mret (CachePath w).

(** ** Option synchronisation *)

Definition splat_of (type : string) : SplatType :=
  if String.eqb type "gaussian" then GAUSSIAN else SPHERE.

(** The renderer calls of [UpdateDynamicOptions] past its early return, in
    program order. *)
Definition dynamic_calls (cachePath : string) (opt : options)
  : list (string * list value) :=
  [ ("SetCachePath", [VString cachePath]);
    ("UpdateLights", []);
    ("ShowAxis", [VBool (interactor_axis opt)]);
    ("SetUseTrackball", [VBool (interactor_trackball opt)]);
    ("SetInvertZoom", [VBool (interactor_invert_zoom opt)]);
    ("SetPointSpritesProperties",
       [VSplat (splat_of (model_point_sprites_type opt));
        VInt (model_point_sprites_size opt)]);
    ("SetLineWidth", [VDouble (render_line_width opt)]);
    ("SetPointSize", [VDouble (render_point_size opt)]);
    ("ShowEdge", [VBool (render_show_edges opt)]);
    ("ShowTimer", [VBool (ui_fps opt)]);
    ("ShowFilename", [VBool (ui_filename opt)]);
    ("SetFilenameInfo", [VString (ui_filename_info opt)]);
    ("ShowMetaData", [VBool (ui_metadata opt)]);
    ("ShowCheatSheet", [VBool (ui_cheatsheet opt)]);
    ("ShowDropZone", [VBool (ui_dropzone opt)]);
    ("SetDropZoneInfo", [VString (ui_dropzone_info opt)]);
    ("SetUseRaytracing", [VBool (render_raytracing_enable opt)]);
    ("SetRaytracingSamples", [VInt (render_raytracing_samples opt)]);
    ("SetUseRaytracingDenoiser", [VBool (render_raytracing_denoise opt)]);
    ("SetUseSSAOPass", [VBool (render_effect_ambient_occlusion opt)]);
    ("SetUseFXAAPass", [VBool (render_effect_anti_aliasing opt)]);
    ("SetUseToneMappingPass", [VBool (render_effect_tone_mapping opt)]);
    ("SetUseDepthPeelingPass", [VBool (render_effect_translucency_support opt)]);
    ("SetBackfaceType", [VString (render_backface_type opt)]);
    ("SetFinalShader", [VString (render_effect_final_shader opt)]);
    ("SetBackground", VColor (render_background_color opt));
    ("SetUseBlurBackground", [VBool (render_background_blur opt)]);
    ("SetBlurCircleOfConfusionRadius", [VDouble (render_background_blur_coc opt)]);
    ("SetLightIntensity", [VDouble (render_light_intensity opt)]);
    ("SetHDRIFile", [VString (render_hdri_file opt)]);
    ("SetUseImageBasedLighting", [VBool (render_hdri_ambient opt)]);
    ("ShowHDRISkybox", [VBool (render_background_skybox opt)]);
    ("SetFontFile", [VString (ui_font_file opt)]);
    ("SetGridUnitSquare", [VDouble (render_grid_unit opt)]);
    ("SetGridSubdivisions", [VInt (render_grid_subdivisions opt)]);
    ("SetGridAbsolute", [VBool (render_grid_absolute opt)]);
    ("ShowGrid", [VBool (render_grid_enable opt)]);
    ("SetGridColor", VColor (render_grid_color opt)) ]
  ++ (if bool_decide (is_Some (scene_camera_index opt)) then []
      else [ ("SetUseOrthographicProjection",
                [VBool (scene_camera_orthographic opt)]) ])
  ++
  [ ("SetSurfaceColor", VColor (model_color_rgb opt));
    ("SetOpacity", [VDouble (model_color_opacity opt)]);
    ("SetTextureBaseColor", [VString (model_color_texture opt)]);
    ("SetRoughness", [VDouble (model_material_roughness opt)]);
    ("SetMetallic", [VDouble (model_material_metallic opt)]);
    ("SetTextureMaterial", [VString (model_material_texture opt)]);
    ("SetTextureEmissive", [VString (model_emissive_texture opt)]);
    ("SetEmissiveFactor", VColor (model_emissive_factor opt));
    ("SetTextureNormal", [VString (model_normal_texture opt)]);
    ("SetNormalScale", [VDouble (model_normal_scale opt)]);
    ("SetTextureMatCap", [VString (model_matcap_texture opt)]);
    ("SetEnableColoring", [VBool (model_scivis_enable opt)]);
    ("SetUseCellColoring", [VBool (model_scivis_cells opt)]);
    ("SetArrayNameForColoring", [VString (model_scivis_array_name opt)]);
    ("SetComponentForColoring", [VInt (model_scivis_component opt)]);
    ("SetScalarBarRange", [VDoubles (model_scivis_range opt)]);
    ("SetColormap", [VDoubles (model_scivis_colormap opt)]);
    ("ShowScalarBar", [VBool (ui_scalar_bar opt)]);
    ("SetUsePointSprites", [VBool (model_point_sprites_enable opt)]);
    ("SetUseVolume", [VBool (model_volume_enable opt)]);
    ("SetUseInverseOpacityFunction", [VBool (model_volume_inverse opt)]);
    ("UpdateActors", []) ].

(** [window_impl::UpdateDynamicOptions]. *)
Definition UpdateDynamicOptions (w : window_impl) : Eff window_impl :=
  let renderer := Renderer w in
  if IsA (rw_class (RenWin w)) "vtkF3DNoRenderWindow" then
    renderer ← on_renderer "UpdateActors" [] renderer;
    mret (with_Renderer renderer w)
  else
    cachePath ← GetCachePath w;
    renderer ← on_renderer_seq (dynamic_calls cachePath (Options w)) renderer;
    mret (with_Renderer renderer w).

(** The renderer calls one run of [UpdateDynamicOptions] makes: they depend
    on the class of the render window, the cache path and the options, and
    not on the state of the renderer. *)
Definition sync_calls (w : window_impl) : list (string * list value) :=
  if IsA (rw_class (RenWin w)) "vtkF3DNoRenderWindow" then [("UpdateActors", [])]
  else dynamic_calls (CachePath w) (Options w).

(** The renderer after a list of calls. *)
Definition after_calls (cs : list (string * list value)) (r : vtkF3DRenderer)
  : vtkF3DRenderer :=
  foldl (λ r c, rd_invoke c.1 c.2 r) r cs.

(** [window_impl::render]. *)
Definition render (w : window_impl) : Eff (bool * window_impl) :=
  w ← UpdateDynamicOptions w;
  rw ← on_renwin "Render" [] (RenWin w);
  mret (true, with_RenWin rw w).

(** ** Rendering to an image, display and world coordinates *)

Inductive buffer_type : Type := VTK_RGB | VTK_RGBA | VTK_ZBUFFER.

(** What [vtkImageExport] hands over. *)
Record vtkImageData : Type := {
  DataDimensions : Z * Z * Z;
  DataNumberOfScalarComponents : Z;
  Scalars : list Z
}.

(** [f3d::image], as built by [image(width, height, channelCount)] and
    filled through [getContent()]. *)
Record image : Type := {
  width : Z;
  height : Z;
  channelCount : Z;
  content : list Z
}.

Definition black : list value := [VDouble dzero; VDouble dzero; VDouble dzero].

(** A floating-point division, recorded with its operands. *)
Definition fdiv (x y : double) : Eff double :=
  _ ← emit (Division x y); mret (ddiv x y).

Section VTK_pipeline.

(** VTK's part of the work: the frame a [vtkWindowToImageFilter] reads
    back from a render window, its renderer and a buffer type, and the two
    coordinate transformations of [vtkViewport]. *)
Variable vtkWindowToImage :
  render_window → vtkF3DRenderer → buffer_type → vtkImageData.
Variable vtkDisplayToWorld :
  vtkF3DRenderer → point3_t → double * double * double * double.
Variable vtkWorldToDisplay :
  vtkF3DRenderer → double * double * double * double → point3_t.

(** [window_impl::renderToImage]. The filter is pulled when the exporter
    is first asked for its dimensions, after both [if] branches. The first
    renderer of [RenWin] is the window's own renderer. *)
Definition renderToImage (noBackground : bool) (w : window_impl)
  : Eff (image * window_impl) :=
  w ← UpdateDynamicOptions w;
  _ ← emit (Call OnWindowToImageFilter "SetInput" []);
  '(w, inputBufferType) ←
    (if noBackground then
       first ← deref (GetFirstRenderer (RenWin w));
       match first with
       | InternalsRenderer =>
           r ← on_renderer "SetBackground" black (Renderer w);
           _ ← emit (Call OnWindowToImageFilter "SetInputBufferTypeToRGBA" []);
           mret (with_Renderer r w, VTK_RGBA)
       end
     else mret (w, VTK_RGB));
  _ ← emit (Call OnImageExport "SetInputConnection" []);
  _ ← emit (Call OnImageExport "ImageLowerLeftOn" []);
  let data := vtkWindowToImage (RenWin w) (Renderer w) inputBufferType in
  _ ← emit (Call OnImageExport "GetDataDimensions" []);
  let '(d0, d1, _) := DataDimensions data in
  _ ← emit (Call OnImageExport "GetDataNumberOfScalarComponents" []);
  let cmp := DataNumberOfScalarComponents data in
  _ ← emit (Call OnImageExport "Export" []);
  mret ({| width := d0; height := d1; channelCount := cmp;
           content := Scalars data |}, w).

(** [window_impl::getWorldFromDisplay]. *)
Definition getWorldFromDisplay (displayPoint : point3_t) (w : window_impl)
  : Eff (point3_t * window_impl) :=
  let out := (dzero, dzero, dzero) in
  r ← on_renderer "SetDisplayPoint" (VColor displayPoint) (Renderer w);
  r ← on_renderer "DisplayToWorld" [] r;
  let '(worldPt0, worldPt1, worldPt2, worldPt3) :=
    vtkDisplayToWorld r displayPoint in
  out ← (if dgt worldPt3 homogeneousThreshold then
           out0 ← fdiv worldPt0 worldPt3;
           out1 ← fdiv worldPt1 worldPt3;
           out2 ← fdiv worldPt2 worldPt3;
           mret (out0, out1, out2)
         else mret out);
  mret (out, with_Renderer r w).

(** [window_impl::getDisplayFromWorld]. *)
Definition getDisplayFromWorld (worldPoint : point3_t) (w : window_impl)
  : Eff (point3_t * window_impl) :=
  let '(x, y, z) := worldPoint in
  r ← on_renderer "SetWorldPoint"
        [VDouble x; VDouble y; VDouble z; VDouble done_] (Renderer w);
  r ← on_renderer "WorldToDisplay" [] r;
  mret (vtkWorldToDisplay r (x, y, z, done_), with_Renderer r w).

End VTK_pipeline.

(** The homogeneous world point [getWorldFromDisplay] reads back with
    [GetWorldPoint], and its fourth coordinate. *)
Definition unprojected
    (vtkDisplayToWorld : vtkF3DRenderer → point3_t → double * double * double * double)
    (displayPoint : point3_t) (w : window_impl)
  : double * double * double * double :=
  vtkDisplayToWorld
    (rd_invoke "DisplayToWorld" []
       (rd_invoke "SetDisplayPoint" (VColor displayPoint) (Renderer w)))
    displayPoint.

Definition homogeneous (p : double * double * double * double) : double :=
  let '(_, _, _, h) := p in h.

(** The divisors of the divisions a computation performed. *)
Definition divisors (t : list event) : list double :=
  omap (λ e, match e with Division _ d => Some d | _ => None end) t.

(** The calls made on one target. *)
Definition calls_on (tg : target) (t : list event) : list (string * list value) :=
  omap (λ e, match e with
             | Call tg' m args =>
                 if bool_decide (tg' = tg) then Some (m, args) else None
             | _ => None
             end) t.

(* ================================================================== *)
(** * Command-line options (F3DOptions.cxx) *)

Record F3DOptions : Type := {
  Input : string;
  Verbose : bool;
  Axis : bool;
  Grid : bool;
  Normals : bool;
  BackgroundColor : list double;
  WindowSize : list Z;
  Scalars_ : string;
  Component : Z;
  Cells : bool;
  Range : list double;
  HideBar : bool;
  DepthPeeling : bool;
  FXAA : bool;
  SSAO : bool
}.

Definition with_Input (s : string) (o : F3DOptions) : F3DOptions :=
  {| Input := s; Verbose := Verbose o; Axis := Axis o; Grid := Grid o;
     Normals := Normals o; BackgroundColor := BackgroundColor o;
     WindowSize := WindowSize o; Scalars_ := Scalars_ o;
     Component := Component o; Cells := Cells o; Range := Range o;
     HideBar := HideBar o; DepthPeeling := DepthPeeling o; FXAA := FXAA o;
     SSAO := SSAO o |}.

Definition EXIT_SUCCESS : Z := 0.
Definition EXIT_FAILURE : Z := 1.

(** How a call ends for its caller: it returns, the process exits, an
    exception leaves the function, or the behaviour is undefined. *)
Inductive ending (A : Type) : Type :=
| Returns (a : A)
| Exits (status : Z)
| Propagates (what : string)
| Undefined.

Arguments Returns {A} a.
Arguments Exits {A} status.
Arguments Propagates {A} what.
Arguments Undefined {A}.

(** A call with what it wrote on the standard streams. *)
Record run (A : Type) : Type := {
  cout : list string;
  cerr : list string;
  outcome : ending A
}.

Arguments cout {A} r.
Arguments cerr {A} r.
Arguments outcome {A} r.

(** What [result["input"].as<std::string>()] does: yields the value, throws
    a [cxxopts::OptionException], or throws something else (the cxxopts
    release at hand decides which, for an absent value). *)
Inductive as_string : Type :=
| as_value (s : string)
| as_option_exception (what : string)
| as_other_exception (what : string).

(** What [options.parse(argc, argv)] does: throws a
    [cxxopts::OptionException], the bound fields holding what was stored
    before the throw, or returns, the bound fields holding the parsed and
    default values. *)
Inductive parse_result : Type :=
| parse_throws (what : string) (bound : F3DOptions)
| parse_ok (bound : F3DOptions) (count_help : nat) (input : as_string).

Section cxxopts.

(** The cxxopts parser set up with the options of [InitializeFromArgs],
    and the help text it prints. *)
Variable cxxopts_parse : F3DOptions → list string → parse_result.
Variable cxxopts_help : string.

(** [F3DOptions::InitializeFromArgs]; [argc] is the length of [argv]. An
    empty [argv] makes [argv[0]] a null pointer, from which no
    [std::string] can be built. *)
Definition InitializeFromArgs (this : F3DOptions) (argv : list string)
  : run (bool * F3DOptions) :=
  match argv with
  | [] => {| cout := []; cerr := []; outcome := Undefined |}
  | _ :: _ =>
      if bool_decide (length argv = 1%nat) then
        {| cout := [cxxopts_help]; cerr := [];
           outcome := Exits EXIT_FAILURE |}
      else
        match cxxopts_parse this argv with
        | parse_throws what _ =>
            {| cout := ["error parsing options: " +:+ what]; cerr := [];
               outcome := Exits EXIT_FAILURE |}
        | parse_ok this' count_help input =>
            if bool_decide (0 < count_help)%nat then
              {| cout := [cxxopts_help]; cerr := [];
                 outcome := Exits EXIT_SUCCESS |}
            else
              match input with
              | as_value s =>
                  {| cout := []; cerr := [];
                     outcome := Returns (true, with_Input s this') |}
              | as_option_exception what =>
                  {| cout := ["error parsing options: " +:+ what];
                     cerr := []; outcome := Exits EXIT_FAILURE |}
              | as_other_exception what =>
                  {| cout := []; cerr := []; outcome := Propagates what |}
              end
        end
  end.

End cxxopts.

Section jsoncpp.

(** The files that can be opened, with their contents, and whether
    [Json::parseFromStream] accepts a content. *)
Variable files : gmap string string.
Variable Json_parseFromStream : string → bool.

(** [F3DOptions::InitializeFromFile]. *)
Definition InitializeFromFile (this : F3DOptions) (fname : string)
  : run (bool * F3DOptions) :=
  match files !! fname with
  | None =>
      {| cout := [];
         cerr := ["Unable to open configuration file " +:+ fname];
         outcome := Returns (false, this) |}
  | Some file =>
      let success := Json_parseFromStream file in
      if negb success then
        {| cout := [];
           cerr := ["Unable to parse the configuration file " +:+ fname];
           outcome := Returns (false, this) |}
      else
        {| cout := []; cerr := []; outcome := Returns (true, this) |}
  end.

End jsoncpp.

(* ================================================================== *)
(** * The rest of the window interface *)

Definition with_Options (o : options) (w : window_impl) : window_impl :=
  {| Camera := Camera w; RenWin := RenWin w; Renderer := Renderer w;
     Options := o; CachePath := CachePath w;
     GetProcAddress := GetProcAddress w |}.

(** [int] is 32 bits wide; a signed overflow has no defined result. *)
Definition INT_MIN : Z := -2147483648.
Definition INT_MAX : Z := 2147483647.

Definition int_sub (a b : Z) : option Z :=
  let r := a - b in
  if (INT_MIN <=? r) && (r <=? INT_MAX) then Some r else None.

Section VTK_geometry.

(** What VTK reports for the screen and for the window. *)
Variable vtkGetScreenSize : render_window → Z * Z.
Variable vtkGetSize : render_window → Z * Z.

(** [window_impl::setPosition]: a Cocoa window counts its vertical position
    from the other edge of the screen. [None] when the subtraction
    overflows. *)
Definition setPosition (x y : Z) (w : window_impl) : option (Eff window_impl) :=
  if IsA (rw_class (RenWin w)) "vtkCocoaRenderWindow" then
    let screenSize := vtkGetScreenSize (RenWin w) in
    let winSize := vtkGetSize (RenWin w) in
    d ← int_sub screenSize.2 winSize.2;
    y' ← int_sub d y;
    Some (rw ← on_renwin "SetPosition" [VInt x; VInt y'] (RenWin w);
          mret (with_RenWin rw w))
  else
    Some (rw ← on_renwin "SetPosition" [VInt x; VInt y] (RenWin w);
          mret (with_RenWin rw w)).

End VTK_geometry.

(** [window_impl::~window_impl]. *)
Definition window_impl_dtor (w : window_impl) : Eff unit :=
  _ ← on_renderer "ShowAxis" [VBool false] (Renderer w); mret tt.

(** One completed call on a window, by which it goes from one state to the
    next. The options are held by reference: the host may change them between
    two calls. VTK's behaviour is any behaviour. *)
Inductive api_step : window_impl → window_impl → Prop :=
| step_host_options o w :
    api_step w (with_Options o w)
| step_setSize width height w w' t :
    setSize width height w = Done (w', t) → api_step w w'
| step_setPosition screen size x y w w' t :
    setPosition screen size x y w = Some (Done (w', t)) → api_step w w'
| step_setWindowName name w w' t :
    setWindowName name w = Done (w', t) → api_step w w'
| step_setAnimationNameInfo name w w' t :
    setAnimationNameInfo name w = Done (w', t) → api_step w w'
| step_InitializeUpVector w w' t :
    InitializeUpVector w = Done (w', t) → api_step w w'
| step_SetCachePath cachePath w :
    api_step w (SetCachePath cachePath w)
| step_UpdateDynamicOptions w w' t :
    UpdateDynamicOptions w = Done (w', t) → api_step w w'
| step_render w b w' t :
    render w = Done ((b, w'), t) → api_step w w'
| step_renderToImage W2I noBackground w img w' t :
    renderToImage W2I noBackground w = Done ((img, w'), t) → api_step w w'
| step_getWorldFromDisplay D2W p w q w' t :
    getWorldFromDisplay D2W p w = Done ((q, w'), t) → api_step w w'
| step_getDisplayFromWorld W2D p w q w' t :
    getDisplayFromWorld W2D p w = Done ((q, w'), t) → api_step w w'.

(** The windows a program can hold: built by the constructor, then used
    through the interface. *)
Definition reachable (cfg : build_config) (w : window_impl) : Prop :=
  ∃ env opts type offscreen gpa w0 t,
    window_impl_ctor cfg env opts type offscreen gpa = Done (w0, t)
    ∧ rtc api_step w0 w.

(** What the constructor makes of the render window a branch created, in
    closed form: the OpenGL set-up, then the settings common to all. *)
Definition opengl_configured (cfg : build_config) (gpa : context_function)
    (rw0 : render_window) : render_window :=
  if vtk_at_least cfg 9 3 20240914 && IsA (rw_class rw0) "vtkOpenGLRenderWindow"
  then
    let rw := if bool_decide (is_Some gpa)
              then rw_invoke "SetOpenGLSymbolLoader" [] rw0 else rw0 in
    if F3D_MODULE_EXTERNAL_RENDERING cfg
       && IsA (rw_class rw0) "vtkExternalOpenGLRenderWindow"
    then rw_invoke "vtkOpenGLRenderWindow::OpenGLInit" [] rw else rw
  else rw0.

Definition configured (cfg : build_config) (gpa : context_function)
    (offscreen : bool) (rw0 : render_window) : render_window :=
  let rw := opengl_configured cfg gpa rw0 in
  let rw := if vtk_at_least cfg 9 3 20240606
            then rw_invoke "EnableTranslucentSurfaceOn" [] rw else rw in
  AddRenderer InternalsRenderer
    (rw_invoke "SetWindowName" [VString "f3d"]
       (rw_invoke "SetOffScreenRendering" [VBool offscreen]
          (rw_invoke "SetMultiSamples" [VInt 0] rw))).

(** The image [renderToImage] builds from what the exporter hands over. *)
Definition image_from (data : vtkImageData) : image :=
  {| width := (DataDimensions data).1.1;
     height := (DataDimensions data).1.2;
     channelCount := DataNumberOfScalarComponents data;
     content := Scalars data |}.

(** The renderer and the window as [UpdateDynamicOptions] leaves them. *)
Definition synced_renderer (w : window_impl) : vtkF3DRenderer :=
  after_calls (sync_calls w) (Renderer w).

Definition synced (w : window_impl) : window_impl :=
  with_Renderer (synced_renderer w) w.

(** The part of a window that is fixed at construction. *)
Definition same_backend (w w' : window_impl) : Prop :=
  rw_class (RenWin w') = rw_class (RenWin w)
  ∧ rw_renderers (RenWin w') = rw_renderers (RenWin w)
  ∧ Camera w' = Camera w.

Definition in_int (z : Z) : bool := (INT_MIN <=? z) && (z <=? INT_MAX).

(** The renderer entries the two coordinate conversions write. *)
Definition conversion_scratch : list string :=
  ["SetDisplayPoint"; "DisplayToWorld"; "SetWorldPoint"; "WorldToDisplay"].

(** The types whose constructor branch throws when it is compiled out. *)
Definition throwing_types : list window_Type := [EXTERNAL; EGL; OSMESA; GLX].

(* ================================================================== *)
(** * Sample builds and inputs *)

(** A Linux build against VTK 9.4 with X, EGL and external rendering. *)
Definition linux_build : build_config :=
  {| F3D_MODULE_EXTERNAL_RENDERING := true;
     VTK_OPENGL_HAS_EGL := true;
     VTK_USE_X := true;
     VTK_VERSION_NUMBER := VTK_VERSION_CHECK 9 4 0;
     _WIN32 := false;
     __ANDROID__ := false;
     __APPLE__ := false;
     __EMSCRIPTEN__ := false;
     NDEBUG := false;
     default_window_class := vtkXOpenGLRenderWindow |}.

(** The same build with assertions compiled out. *)
Definition linux_release_build : build_config :=
  {| F3D_MODULE_EXTERNAL_RENDERING := true;
     VTK_OPENGL_HAS_EGL := true;
     VTK_USE_X := true;
     VTK_VERSION_NUMBER := VTK_VERSION_CHECK 9 4 0;
     _WIN32 := false;
     __ANDROID__ := false;
     __APPLE__ := false;
     __EMSCRIPTEN__ := false;
     NDEBUG := true;
     default_window_class := vtkXOpenGLRenderWindow |}.

Definition no_registry : host_env :=
  {| reg_CurrentBuildNumber := None;
     reg_AppsUseLightTheme := None;
     reg_SystemUsesLightTheme := None |}.

Definition grey : color_t := (done_, done_, done_).

Definition sample_options : options :=
  {| scene_up_direction := "+Y";
     scene_camera_index := None;
     scene_camera_orthographic := false;
     interactor_axis := true;
     interactor_trackball := false;
     interactor_invert_zoom := false;
     model_point_sprites_enable := false;
     model_point_sprites_size := 10;
     model_point_sprites_type := "sphere";
     model_color_rgb := grey;
     model_color_opacity := done_;
     model_color_texture := "";
     model_material_roughness := done_;
     model_material_metallic := dzero;
     model_material_texture := "";
     model_emissive_texture := "";
     model_emissive_factor := grey;
     model_normal_texture := "";
     model_normal_scale := done_;
     model_matcap_texture := "";
     model_scivis_enable := false;
     model_scivis_cells := false;
     model_scivis_array_name := "";
     model_scivis_component := -1;
     model_scivis_range := [];
     model_scivis_colormap := [];
     model_volume_enable := false;
     model_volume_inverse := false;
     render_line_width := done_;
     render_point_size := done_;
     render_show_edges := false;
     render_backface_type := "default";
     render_raytracing_enable := false;
     render_raytracing_samples := 5;
     render_raytracing_denoise := false;
     render_effect_ambient_occlusion := false;
     render_effect_anti_aliasing := false;
     render_effect_tone_mapping := false;
     render_effect_translucency_support := true;
     render_effect_final_shader := "";
     render_background_color := grey;
     render_background_blur := false;
     render_background_blur_coc := done_;
     render_background_skybox := false;
     render_light_intensity := done_;
     render_hdri_file := "";
     render_hdri_ambient := false;
     render_grid_unit := done_;
     render_grid_subdivisions := 10;
     render_grid_absolute := false;
     render_grid_enable := true;
     render_grid_color := (dzero, dzero, dzero);
     ui_fps := false;
     ui_filename := false;
     ui_filename_info := "";
     ui_metadata := false;
     ui_cheatsheet := false;
     ui_dropzone := false;
     ui_dropzone_info := "";
     ui_font_file := "";
     ui_scalar_bar := false |}.

(** A window as the constructor leaves it, around a render window of class
    [c], with a cache path set. *)
Definition sample_window (c : vtkClass) : window_impl :=
  {| Camera := {| VTKRenderer := Some InternalsRenderer |};
     RenWin := AddRenderer InternalsRenderer (New c);
     Renderer := rd_invoke "Initialize" [] NewRenderer;
     Options := sample_options;
     CachePath := "/tmp/f3d";
     GetProcAddress := None |}.

(** A read-back that yields one RGBA pixel carrying the red, green and blue
    of the renderer's background. *)
Definition one_pixel (rw : render_window) (r : vtkF3DRenderer) (b : buffer_type)
  : vtkImageData :=
  {| DataDimensions := (1, 1, 1);
     DataNumberOfScalarComponents := match b with VTK_RGBA => 4 | _ => 3 end;
     Scalars := match rd_props r !! "SetBackground" with
                | Some [VDouble (S754_zero _); VDouble (S754_zero _);
                        VDouble (S754_zero _)] => [0; 0; 0]
                | _ => [51; 51; 51]
                end
                ++ match b with VTK_RGBA => [0] | _ => [] end |}.

Definition sample_F3DOptions : F3DOptions :=
  {| Input := ""; Verbose := false; Axis := false; Grid := false;
     Normals := false; BackgroundColor := []; WindowSize := [];
     Scalars_ := ""; Component := 0; Cells := false; Range := [];
     HideBar := false; DepthPeeling := false; FXAA := false; SSAO := false |}.

(** A parser that accepts every command line, sees no [--help] and takes
    the second word as the input file. *)
Definition sample_parse (this : F3DOptions) (argv : list string) : parse_result :=
  parse_ok this 0 (match argv with
                   | _ :: file :: _ => as_value file
                   | _ => as_other_exception "No value"
                   end).

(** A Windows build against VTK 9.4. *)
Definition windows_build : build_config :=
  {| F3D_MODULE_EXTERNAL_RENDERING := false;
     VTK_OPENGL_HAS_EGL := false;
     VTK_USE_X := false;
     VTK_VERSION_NUMBER := VTK_VERSION_CHECK 9 4 0;
     _WIN32 := true;
     __ANDROID__ := false;
     __APPLE__ := false;
     __EMSCRIPTEN__ := false;
     NDEBUG := true;
     default_window_class := vtkWin32OpenGLRenderWindow |}.

(** A build against VTK 9.3.0, older than every version the file tests. *)
Definition old_vtk_build : build_config :=
  {| F3D_MODULE_EXTERNAL_RENDERING := false;
     VTK_OPENGL_HAS_EGL := true;
     VTK_USE_X := true;
     VTK_VERSION_NUMBER := VTK_VERSION_CHECK 9 3 0;
     _WIN32 := false;
     __ANDROID__ := false;
     __APPLE__ := false;
     __EMSCRIPTEN__ := false;
     NDEBUG := false;
     default_window_class := vtkXOpenGLRenderWindow |}.

(** Windows 11 in dark mode, and a registry whose build number does not fit
    an [int]. *)
Definition windows11_dark : host_env :=
  {| reg_CurrentBuildNumber := Some (stoi_value 22631);
     reg_AppsUseLightTheme := Some 0;
     reg_SystemUsesLightTheme := Some 1 |}.

Definition overflowing_registry : host_env :=
  {| reg_CurrentBuildNumber := Some stoi_out_of_range;
     reg_AppsUseLightTheme := None;
     reg_SystemUsesLightTheme := None |}.

(** The value of a computation that ended normally. *)
Definition constructed_value {A} (m : Eff A) : option A :=
  match m with Done (a, _) => Some a | _ => None end.

(** The window a run of the constructor leaves, when it leaves one. *)
Definition constructed (m : Eff window_impl) : option window_impl :=
  constructed_value m.

(* ================================================================== *)
(** * Properties *)

(** ** The effect layer *)

Lemma eff_bind_done {A B} (f : A → Eff B) (a : A) (t : list event) :
  (Done (a, t) ≫= f) =
  match f a with
  | Done (b, t2) => Done (b, t ++ t2)
  | Thrown e => Thrown e
  | AssertionFailed => AssertionFailed
  | NullDereference => NullDereference
  end.
Proof. reflexivity. Qed.

(** A sequence that completes is made of two parts that complete. *)
Lemma eff_bind_inv {A B} (m : Eff A) (f : A → Eff B) (b : B) (t : list event) :
  (m ≫= f) = Done (b, t) →
  ∃ a t1 t2, m = Done (a, t1) ∧ f a = Done (b, t2) ∧ t = t1 ++ t2.
Proof.
  destruct m as [[a t1]| | |]; try discriminate.
  rewrite eff_bind_done.
  destruct (f a) as [[b' t2]| | |] eqn:E; try discriminate.
  intros [= -> <-]. eauto 6.
Qed.

Lemma on_renwin_done m args rw :
  on_renwin m args rw = Done (rw_invoke m args rw, [Call OnRenWin m args]).
Proof. reflexivity. Qed.

Lemma on_renderer_done m args r :
  on_renderer m args r = Done (rd_invoke m args r, [Call OnRenderer m args]).
Proof. reflexivity. Qed.

(** A sequence of renderer calls always completes: the renderer has gone
    through every call, and the events are the calls, in order. *)
Lemma on_renderer_seq_done cs r :
  on_renderer_seq cs r =
  Done (after_calls cs r, map (λ c, Call OnRenderer c.1 c.2) cs).
Proof.
  revert r. induction cs as [|[m args] cs IH]; intros r.
  - reflexivity.
  - cbn [on_renderer_seq].
    rewrite on_renderer_done, eff_bind_done, IH. reflexivity.
Qed.

(** ** Construction *)

Lemma setup_opengl_done cfg gpa rw :
  ∃ rw' t, setup_opengl cfg gpa (Some rw) = Done (Some rw', t)
           ∧ rw_class rw' = rw_class rw
           ∧ rw_renderers rw' = rw_renderers rw.
Proof.
  unfold setup_opengl, SafeDownCast_OpenGL. cbn [mbind option_bind].
  destruct (IsA (rw_class rw) "vtkOpenGLRenderWindow").
  - destruct (bool_decide (is_Some gpa));
      destruct (F3D_MODULE_EXTERNAL_RENDERING cfg);
      destruct (IsA (rw_class rw) "vtkExternalOpenGLRenderWindow") eqn:E;
      cbn; rewrite ?E; cbn; eauto 6.
  - cbn. eauto.
Qed.

Lemma UpdateTheme_done cfg env :
  theme_probe_returns cfg env = true → ∃ t, UpdateTheme cfg env = Done (tt, t).
Proof.
  unfold theme_probe_returns, UpdateTheme, IsWindowsBuildNumberOrGreater.
  destruct (_WIN32 cfg); cbn; [|eauto].
  destruct (reg_CurrentBuildNumber env) as [[n| |]|]; cbn; try discriminate;
    intros _; try destruct (_ <=? n); cbn; eauto.
Qed.

(** Once a branch of the constructor has created a render window, and the
    theme probe comes back, construction completes: the window has the class
    that branch created and the window's renderer as its only new renderer. *)
Lemma ctor_completes cfg env opts type offscreen gpa rw t :
  select_render_window cfg type = Done (Some rw, t) →
  theme_probe_returns cfg env = true →
  ∃ w t', window_impl_ctor cfg env opts type offscreen gpa = Done (w, t')
          ∧ rw_class (RenWin w) = rw_class rw
          ∧ rw_renderers (RenWin w) = rw_renderers rw ++ [InternalsRenderer]
          ∧ Options w = opts.
Proof.
  intros Hsel Hth. unfold window_impl_ctor. rewrite Hsel, eff_bind_done.
  destruct (UpdateTheme_done cfg env Hth) as [tt' Htheme].
  destruct (setup_opengl_done cfg gpa rw) as (rw' & t' & Hogl & Hcls & Hrens).
  assert (Hassert : (if NDEBUG cfg then mret tt
                     else assert (bool_decide (is_Some (Some rw))))
                    = Done (tt, []) :> Eff unit).
  { destruct (NDEBUG cfg); reflexivity. }
  rewrite Hassert, eff_bind_done.
  destruct (vtk_at_least cfg 9 3 20240914).
  - rewrite Hogl, eff_bind_done. cbn [deref].
    destruct (vtk_at_least cfg 9 3 20240606); cbn; rewrite Htheme; cbn;
      eexists _, _; (split; [reflexivity|]); cbn; rewrite Hcls, Hrens; done.
  - destruct (vtk_at_least cfg 9 3 20240606); cbn; rewrite Htheme; cbn;
      eexists _, _; (split; [reflexivity|]); cbn; done.
Qed.

(** For EXTERNAL, EGL, OSMESA and GLX, a request without compile-time
    support throws [no_window_exception]: each of these branches has a
    [throw] under its [#else]. *)
Lemma ctor_unsupported_throws cfg env opts t offscreen gpa :
  t ∈ [EXTERNAL; EGL; OSMESA; GLX] →
  compiled_in cfg t = false →
  ∃ what, window_impl_ctor cfg env opts (Some t) offscreen gpa
          = Thrown (no_window_exception what).
Proof.
  intros Hin Hno. unfold window_impl_ctor, select_render_window.
  repeat (apply elem_of_cons in Hin as [->|Hin]);
    [..|by apply elem_of_nil in Hin];
    cbn [compiled_in] in Hno; rewrite Hno; cbn; eauto.
Qed.

(** The WGL branch has no [#else]: without [_WIN32] it leaves [RenWin]
    null and throws nothing, and the constructor stops on its [assert], or
    on the first use of [RenWin] when assertions are compiled out. *)
Lemma ctor_WGL_without_WIN32 cfg env opts offscreen gpa :
  _WIN32 cfg = false →
  window_impl_ctor cfg env opts (Some WGL) offscreen gpa
  = if NDEBUG cfg then NullDereference else AssertionFailed.
Proof.
  intros Hwin. unfold window_impl_ctor, select_render_window.
  rewrite Hwin. destruct (NDEBUG cfg); cbn; [|reflexivity].
  destruct (vtk_at_least cfg 9 3 20240914); reflexivity.
Qed.

(** C1, at the failing input: on a Linux build, where WGL has no
    compile-time support, requesting WGL does not throw
    [no_window_exception]; construction ends on the failed [assert]
    (on the null dereference in a release build). *)
Theorem ctor_WGL_on_linux_does_not_throw env opts offscreen gpa :
  compiled_in linux_build WGL = false
  ∧ window_impl_ctor linux_build env opts (Some WGL) offscreen gpa
    = AssertionFailed
  ∧ window_impl_ctor linux_release_build env opts (Some WGL) offscreen gpa
    = NullDereference
  ∧ ∀ what, window_impl_ctor linux_build env opts (Some WGL) offscreen gpa
            ≠ Thrown (no_window_exception what).
Proof.
  split; [reflexivity|].
  split; [by rewrite ctor_WGL_without_WIN32|].
  split; [by rewrite ctor_WGL_without_WIN32|].
  intros what. by rewrite ctor_WGL_without_WIN32.
Qed.

(** ** The reported type *)

(** Evaluate [IsA] wherever its class is known. *)
Ltac eval_IsA :=
  repeat match goal with
         | |- context [IsA ?c ?n] =>
             let v := eval vm_compute in (IsA c n) in
             change (IsA c n) with v
         end.

Lemma select_compiled_in cfg t :
  compiled_in cfg t = true →
  ∃ c rw tr, select_render_window cfg (Some t) = Done (Some rw, tr)
             ∧ rw_class rw = c
             ∧ rw_renderers rw = []
             ∧ c = match t with
                   | NONE => vtkF3DNoRenderWindow
                   | EXTERNAL => vtkExternalOpenGLRenderWindow
                   | EGL => vtkEGLRenderWindow
                   | OSMESA => vtkOSOpenGLRenderWindow
                   | GLX => vtkXOpenGLRenderWindow
                   | _ => vtkWin32OpenGLRenderWindow
                   end.
Proof.
  intros Hin. unfold select_render_window.
  destruct t; cbn [compiled_in] in Hin; try discriminate; rewrite ?Hin;
    try destruct (__ANDROID__ cfg); cbn; eauto 10.
Qed.

(** C2, as amended: for every compiled-in back end other than EXTERNAL,
    construction with that type completes (the Windows theme probe coming
    back) and [getType] reports the requested type. *)
Theorem getType_matches_request cfg env opts t offscreen gpa :
  compiled_in cfg t = true →
  t ≠ EXTERNAL →
  theme_probe_returns cfg env = true →
  ∃ w tr, window_impl_ctor cfg env opts (Some t) offscreen gpa = Done (w, tr)
          ∧ getType cfg w = t.
Proof.
  intros Hin Hext Hth.
  destruct (select_compiled_in cfg t Hin) as (c & rw & tr & Hsel & Hc & _ & Hcls).
  destruct (ctor_completes cfg env opts (Some t) offscreen gpa rw tr Hsel Hth)
    as (w & tr' & Hw & Hclass & _).
  exists w, tr'. split; [exact Hw|].
  unfold getType. rewrite Hclass, Hc, Hcls.
  destruct t; cbn [compiled_in] in Hin; try discriminate; try done;
    repeat match type of Hin with
           | _ && _ = true => apply andb_prop in Hin as [? Hin]
           end;
    eval_IsA;
    repeat match goal with
           | H : ?b = true |- context [?b] => rewrite H
           end;
    rewrite ?andb_false_r; reflexivity.
Qed.

Lemma getType_matches_request_witness :
  ∃ w tr, window_impl_ctor linux_build no_registry sample_options (Some GLX)
            false None = Done (w, tr)
          ∧ getType linux_build w = GLX.
Proof.
  apply getType_matches_request; [reflexivity|discriminate|reflexivity].
Defined.

(** C2, as stated, fails for EXTERNAL: with external rendering compiled in,
    the constructed window wraps a [vtkExternalOpenGLRenderWindow], a class
    [getType] has no test for, and the reported type is UNKNOWN. *)
Lemma getType_external_is_unknown :
  ¬ (∀ cfg env opts t offscreen gpa w tr,
       compiled_in cfg t = true →
       window_impl_ctor cfg env opts (Some t) offscreen gpa = Done (w, tr) →
       getType cfg w = t).
Proof.
  intros H.
  destruct (constructed (window_impl_ctor linux_build no_registry sample_options
                           (Some EXTERNAL) false None)) as [w|] eqn:E;
    [|vm_compute in E; discriminate].
  unfold constructed in E.
  destruct (window_impl_ctor linux_build no_registry sample_options
              (Some EXTERNAL) false None) as [[w' tr]| | |] eqn:E';
    try discriminate.
  injection E as ->.
  specialize (H linux_build no_registry sample_options EXTERNAL false None w tr
                eq_refl E').
  vm_compute in E'. injection E' as <- _.
  vm_compute in H. discriminate.
Qed.

(** ** The homogeneous-divide guard *)

(** [<] on doubles is asymmetric. *)
Lemma SFltb_asym (x y : double) : SFltb x y = true → SFltb y x = false.
Proof.
  unfold SFltb, SFcompare.
  destruct x as [sx|sx| |sx mx ex], y as [sy|sy| |sy my ey];
    try destruct sx; try destruct sy; try discriminate; try reflexivity.
  - rewrite (Z.compare_antisym ex ey).
    destruct (ex ?= ey) eqn:E; cbn; try discriminate; try reflexivity.
    pose proof (Pos.compare_cont_antisym mx my Eq) as H. cbn in H.
    rewrite <- H.
    destruct (Pos.compare_cont Eq mx my); cbn; try discriminate; reflexivity.
  - rewrite (Z.compare_antisym ex ey).
    destruct (ex ?= ey) eqn:E; cbn; try discriminate; try reflexivity.
    pose proof (Pos.compare_cont_antisym mx my Eq) as H. cbn in H.
    rewrite <- H.
    destruct (Pos.compare_cont Eq mx my); cbn; try discriminate; reflexivity.
Qed.

(** A coordinate below the threshold does not pass the guard. *)
Lemma below_threshold_fails_guard (h : double) :
  dlt h homogeneousThreshold = true → dgt h homogeneousThreshold = false.
Proof. unfold dlt, dgt. apply SFltb_asym. Qed.

(** What [getWorldFromDisplay] does when the guard fails: no division, and
    the origin. *)
Lemma getWorldFromDisplay_guard_fails D2W p w :
  dgt (homogeneous (unprojected D2W p w)) homogeneousThreshold = false →
  ∃ w' t, getWorldFromDisplay D2W p w = Done (((dzero, dzero, dzero), w'), t)
          ∧ divisors t = [].
Proof.
  unfold unprojected, getWorldFromDisplay. intros Hguard.
  rewrite on_renderer_done, eff_bind_done, on_renderer_done, eff_bind_done.
  destruct (D2W _ p) as [[[x y] z] h]. cbn [homogeneous] in Hguard.
  rewrite Hguard. cbn. eauto.
Qed.

(** C4: when the unprojected homogeneous coordinate is below 1e-7,
    [getWorldFromDisplay] returns the origin and performs no division. *)
Theorem getWorldFromDisplay_below_threshold D2W p w :
  dlt (homogeneous (unprojected D2W p w)) homogeneousThreshold = true →
  ∃ w' t, getWorldFromDisplay D2W p w = Done (((dzero, dzero, dzero), w'), t)
          ∧ divisors t = [].
Proof.
  intros Hlt. apply getWorldFromDisplay_guard_fails.
  by apply below_threshold_fails_guard.
Qed.

(** Every division [getWorldFromDisplay] performs has a divisor above the
    threshold, whatever the display point. *)
Lemma getWorldFromDisplay_divisors D2W p w :
  Forall (λ d, dgt d homogeneousThreshold = true)
         (divisors (trace (getWorldFromDisplay D2W p w))).
Proof.
  unfold getWorldFromDisplay.
  rewrite on_renderer_done, eff_bind_done, on_renderer_done, eff_bind_done.
  destruct (D2W _ p) as [[[x y] z] h].
  destruct (dgt h homogeneousThreshold) eqn:Hguard; cbn.
  - repeat constructor; exact Hguard.
  - constructor.
Qed.

Lemma getWorldFromDisplay_below_threshold_witness :
  ∃ w' t,
    getWorldFromDisplay (λ _ _, (done_, done_, done_, dzero))
      (done_, done_, dzero) (sample_window vtkXOpenGLRenderWindow)
    = Done (((dzero, dzero, dzero), w'), t)
    ∧ divisors t = [].
Proof. apply getWorldFromDisplay_below_threshold. reflexivity. Defined.

(** ** Option synchronisation *)

(** [UpdateDynamicOptions] always completes: the renderer has gone through
    [sync_calls], and nothing else of the window has changed. Past the early
    return the cache directory is created first. *)
Lemma UpdateDynamicOptions_done w :
  UpdateDynamicOptions w =
  Done (with_Renderer (after_calls (sync_calls w) (Renderer w)) w,
        (if IsA (rw_class (RenWin w)) "vtkF3DNoRenderWindow" then []
         else [Call OnSystemTools "MakeDirectory" [VString (CachePath w)]])
        ++ map (λ c, Call OnRenderer c.1 c.2) (sync_calls w)).
Proof.
  unfold UpdateDynamicOptions, sync_calls.
  destruct (IsA (rw_class (RenWin w)) "vtkF3DNoRenderWindow").
  - reflexivity.
  - unfold GetCachePath, emit. cbn [mbind Eff_bind eff_bind mret Eff_ret eff_ret].
    rewrite on_renderer_seq_done, eff_bind_done.
    cbn [mret Eff_ret eff_ret]. by rewrite !app_nil_r.
Qed.

(** C5: with the "none" render window, [UpdateDynamicOptions] makes one call
    on the renderer, [UpdateActors], and no other call at all; what the
    renderer holds for every other method is unchanged, and so is the rest of
    the window. *)
Theorem UpdateDynamicOptions_none w :
  IsA (rw_class (RenWin w)) "vtkF3DNoRenderWindow" = true →
  ∃ w', UpdateDynamicOptions w = Done (w', [Call OnRenderer "UpdateActors" []])
        ∧ (∀ m, m ≠ "UpdateActors" →
                rd_props (Renderer w') !! m = rd_props (Renderer w) !! m)
        ∧ with_Renderer (Renderer w) w' = w.
Proof.
  intros Hnone. rewrite UpdateDynamicOptions_done. unfold sync_calls.
  rewrite Hnone. eexists. split; [reflexivity|]. split.
  - intros m Hm. cbn. unfold rd_invoke. cbn. by rewrite lookup_insert_ne.
  - by destruct w.
Qed.

Lemma UpdateDynamicOptions_none_witness :
  ∃ w', UpdateDynamicOptions (sample_window vtkF3DNoRenderWindow)
        = Done (w', [Call OnRenderer "UpdateActors" []])
        ∧ (∀ m, m ≠ "UpdateActors" →
                rd_props (Renderer w') !! m
                = rd_props (Renderer (sample_window vtkF3DNoRenderWindow)) !! m)
        ∧ with_Renderer (Renderer (sample_window vtkF3DNoRenderWindow)) w'
          = sample_window vtkF3DNoRenderWindow.
Proof. apply UpdateDynamicOptions_none. reflexivity. Defined.

(** C6: [render] runs the whole of [UpdateDynamicOptions], then draws the
    frame with [RenWin->Render()], and returns [true], for every window. *)
Theorem render_returns_true w :
  ∃ w1 t1 w',
    UpdateDynamicOptions w = Done (w1, t1)
    ∧ render w = Done ((true, w'), t1 ++ [Call OnRenWin "Render" []])
    ∧ w' = with_RenWin (rw_invoke "Render" [] (RenWin w1)) w1.
Proof.
  unfold render. rewrite UpdateDynamicOptions_done.
  eexists _, _, _. split; [reflexivity|].
  rewrite eff_bind_done, on_renwin_done, eff_bind_done. cbn [mret Eff_ret eff_ret].
  rewrite app_nil_r. split; reflexivity.
Qed.

(** After a list of calls the renderer holds, for each method called, the
    arguments of its last call, and what it held before for the others. *)
Lemma after_calls_props cs r :
  after_calls cs r = {| rd_props := list_to_map (reverse cs) ∪ rd_props r |}.
Proof.
  unfold after_calls. revert r.
  induction cs as [|[m args] cs IH]; intros [ps].
  - cbn. by rewrite (left_id_L ∅ (∪)).
  - cbn [foldl]. rewrite IH. f_equal.
    cbn [rd_props rd_invoke fst snd].
    rewrite reverse_cons, list_to_map_app, <- (assoc_L (∪)). f_equal.
    cbn [list_to_map foldr uncurry fst snd].
    rewrite insert_empty. apply insert_union_singleton_l.
Qed.

(** Going through the same calls a second time changes nothing. *)
Lemma after_calls_idemp cs r :
  after_calls cs (after_calls cs r) = after_calls cs r.
Proof.
  rewrite !after_calls_props. f_equal. cbn.
  rewrite (assoc_L (∪)). by rewrite (idemp_L (∪)).
Qed.

(** C9: [UpdateDynamicOptions] is idempotent: a second run, the options
    being the same, makes the same calls and leaves the renderer, and the
    whole window, as the first run left them. *)
Theorem UpdateDynamicOptions_idempotent w :
  ∃ w1 t, UpdateDynamicOptions w = Done (w1, t)
          ∧ UpdateDynamicOptions w1 = Done (w1, t).
Proof.
  eexists _, _. split; [apply UpdateDynamicOptions_done|].
  rewrite UpdateDynamicOptions_done.
  change (sync_calls (with_Renderer _ w)) with (sync_calls w).
  cbn [Renderer RenWin CachePath with_Renderer].
  by rewrite after_calls_idemp.
Qed.

(** ** Rendering *)

(** The constructor hands the window's renderer to the render window, so a
    constructed window has a first renderer. *)
Lemma ctor_first_renderer cfg env opts type offscreen gpa w t :
  window_impl_ctor cfg env opts type offscreen gpa = Done (w, t) →
  rw_renderers (RenWin w) ≠ [].
Proof.
  unfold window_impl_ctor. intros H.
  repeat match type of H with
         | (_ ≫= _) = Done _ =>
             apply eff_bind_inv in H as (? & ? & ? & ? & H & ?)
         end.
  injection H as <- _. cbn [RenWin AddRenderer rw_renderers].
  match goal with |- ?l ++ _ ≠ [] => by destruct l end.
Qed.

(** C7: [renderToImage(true)] synchronises the options, then sets the
    renderer's background to (0, 0, 0) and the filter's buffer type to RGBA,
    and only then reads the frame back: the image is the read-back of a
    renderer whose background is black, through an RGBA buffer. *)
Theorem renderToImage_noBackground W2I w :
  rw_renderers (RenWin w) ≠ [] →
  ∃ w1 t1 w' img,
    UpdateDynamicOptions w = Done (w1, t1)
    ∧ renderToImage W2I true w
      = Done ((img, w'),
              t1 ++ [ Call OnWindowToImageFilter "SetInput" [];
                      Call OnRenderer "SetBackground" black;
                      Call OnWindowToImageFilter "SetInputBufferTypeToRGBA" [];
                      Call OnImageExport "SetInputConnection" [];
                      Call OnImageExport "ImageLowerLeftOn" [];
                      Call OnImageExport "GetDataDimensions" [];
                      Call OnImageExport "GetDataNumberOfScalarComponents" [];
                      Call OnImageExport "Export" [] ])
    ∧ rd_props (Renderer w') !! "SetBackground" = Some black
    ∧ content img = Scalars (W2I (RenWin w') (Renderer w') VTK_RGBA)
    ∧ channelCount img
      = DataNumberOfScalarComponents (W2I (RenWin w') (Renderer w') VTK_RGBA)
    ∧ (width img, height img)
      = (DataDimensions (W2I (RenWin w') (Renderer w') VTK_RGBA)).1.
Proof.
  intros Hfirst. unfold renderToImage. rewrite UpdateDynamicOptions_done.
  set (w1 := with_Renderer _ w). set (t1 := _ ++ _).
  exists w1, t1. rewrite eff_bind_done.
  assert (Hhead : GetFirstRenderer (RenWin w1) = Some InternalsRenderer).
  { unfold GetFirstRenderer. subst w1. cbn.
    destruct (rw_renderers (RenWin w)) as [|[] ?]; done. }
  rewrite Hhead. cbn.
  match goal with
  | |- context [DataDimensions ?d] =>
      destruct d as [[[d0 d1] d2] cmp sc] eqn:Hdata
  end.
  cbn. eexists _, _. split; [reflexivity|]. split; [reflexivity|].
  cbn. rewrite Hdata. split; [apply lookup_insert_eq|done].
Qed.

Lemma renderToImage_noBackground_witness :
  ∃ w1 t1 w' img,
    UpdateDynamicOptions (sample_window vtkXOpenGLRenderWindow) = Done (w1, t1)
    ∧ renderToImage one_pixel true (sample_window vtkXOpenGLRenderWindow)
      = Done ((img, w'),
              t1 ++ [ Call OnWindowToImageFilter "SetInput" [];
                      Call OnRenderer "SetBackground" black;
                      Call OnWindowToImageFilter "SetInputBufferTypeToRGBA" [];
                      Call OnImageExport "SetInputConnection" [];
                      Call OnImageExport "ImageLowerLeftOn" [];
                      Call OnImageExport "GetDataDimensions" [];
                      Call OnImageExport "GetDataNumberOfScalarComponents" [];
                      Call OnImageExport "Export" [] ])
    ∧ rd_props (Renderer w') !! "SetBackground" = Some black
    ∧ content img = Scalars (one_pixel (RenWin w') (Renderer w') VTK_RGBA)
    ∧ channelCount img
      = DataNumberOfScalarComponents (one_pixel (RenWin w') (Renderer w') VTK_RGBA)
    ∧ (width img, height img)
      = (DataDimensions (one_pixel (RenWin w') (Renderer w') VTK_RGBA)).1.
Proof. apply renderToImage_noBackground. discriminate. Defined.

(** On the sample window the read-back pixel is black and transparent with
    background suppression, and carries the background without it. *)
Example renderToImage_sample_pixels :
  (fst <$> constructed_value (renderToImage one_pixel true
                               (sample_window vtkXOpenGLRenderWindow)))
  = Some {| width := 1; height := 1; channelCount := 4; content := [0; 0; 0; 0] |}
  ∧ (fst <$> constructed_value (renderToImage one_pixel false
                                  (sample_window vtkXOpenGLRenderWindow)))
    = Some {| width := 1; height := 1; channelCount := 3;
              content := [51; 51; 51] |}.
Proof. split; vm_compute; reflexivity. Qed.

(** ** Command-line and configuration-file options *)

(** C8: [InitializeFromFile] returns [false], with a line on the standard
    error, exactly when the file cannot be opened or its content is not
    accepted by the JSON parser, and [true], silently, otherwise; the options
    are the same after the call as before. *)
Theorem InitializeFromFile_result files parse this fname :
  ∃ b, outcome (InitializeFromFile files parse this fname) = Returns (b, this)
       ∧ (b = false ↔
            files !! fname = None
            ∨ ∃ file, files !! fname = Some file ∧ parse file = false)
       ∧ (b = false → ∃ line, cerr (InitializeFromFile files parse this fname)
                              = [line])
       ∧ (b = true → cerr (InitializeFromFile files parse this fname) = []).
Proof.
  unfold InitializeFromFile.
  destruct (files !! fname) as [file|] eqn:Hfile.
  - destruct (parse file) eqn:Hparse; cbn.
    + exists true. repeat split; try done.
      intros [?|(file' & [= <-] & ?)]; congruence.
    + exists false. repeat split; eauto.
      discriminate.
  - exists false. cbn. repeat split; eauto. discriminate.
Qed.

(** C10: when [InitializeFromArgs] returns, it returns [true]. With no
    argument, with [--help], and on a [cxxopts::OptionException], it does not
    return: the process exits, with [EXIT_FAILURE], [EXIT_SUCCESS] and
    [EXIT_FAILURE]. *)
Theorem InitializeFromArgs_returns_true parse help this argv b this' :
  outcome (InitializeFromArgs parse help this argv) = Returns (b, this') →
  b = true
  ∧ length argv ≠ 1%nat
  ∧ ∃ bound input, parse this argv = parse_ok bound 0 (as_value input).
Proof.
  unfold InitializeFromArgs.
  destruct argv as [|prog rest]; [discriminate|].
  case_bool_decide as Hargc; [discriminate|].
  destruct (parse this (prog :: rest)) as [what bound|bound count input];
    [discriminate|].
  case_bool_decide as Hhelp; [discriminate|].
  destruct input as [s|what|what]; try discriminate.
  cbn. intros [= <- <-]. split; [done|]. split; [done|].
  destruct count; [eauto|]. exfalso. apply Hhelp. lia.
Qed.

Lemma InitializeFromArgs_returns_true_witness :
  true = true
  ∧ length ["f3d"; "cow.vtp"] ≠ 1%nat
  ∧ ∃ bound input,
      sample_parse sample_F3DOptions ["f3d"; "cow.vtp"]
      = parse_ok bound 0 (as_value input).
Proof.
  apply (InitializeFromArgs_returns_true sample_parse "usage" sample_F3DOptions
           ["f3d"; "cow.vtp"] true (with_Input "cow.vtp" sample_F3DOptions)).
  reflexivity.
Defined.

(** The three failure paths of [InitializeFromArgs] end the process. *)
Lemma InitializeFromArgs_failure_exits parse help this argv :
  (length argv = 1%nat →
   outcome (InitializeFromArgs parse help this argv) = Exits EXIT_FAILURE)
  ∧ (∀ what bound, (1 < length argv)%nat →
       parse this argv = parse_throws what bound →
       outcome (InitializeFromArgs parse help this argv) = Exits EXIT_FAILURE)
  ∧ (∀ bound count input, (1 < length argv)%nat →
       parse this argv = parse_ok bound (S count) input →
       outcome (InitializeFromArgs parse help this argv) = Exits EXIT_SUCCESS).
Proof.
  unfold InitializeFromArgs. repeat split.
  - destruct argv as [|? [|? ?]]; try discriminate. reflexivity.
  - intros what bound Hlen Hparse.
    destruct argv as [|? [|? ?]]; cbn in Hlen; try lia.
    rewrite Hparse. reflexivity.
  - intros bound count input Hlen Hparse.
    destruct argv as [|? [|? ?]]; cbn in Hlen; try lia.
    rewrite Hparse. reflexivity.
Qed.

(* ================================================================== *)
(** * Further properties of the window *)

(** ** How construction ends *)

Lemma ctor_select_throws cfg env opts type offscreen gpa e :
  select_render_window cfg type = Thrown e →
  window_impl_ctor cfg env opts type offscreen gpa = Thrown e.
Proof. intros H. unfold window_impl_ctor. by rewrite H. Qed.

Lemma ctor_select_null cfg env opts type offscreen gpa t :
  select_render_window cfg type = Done (None, t) →
  window_impl_ctor cfg env opts type offscreen gpa
  = if NDEBUG cfg then NullDereference else AssertionFailed.
Proof.
  intros H. unfold window_impl_ctor. rewrite H, eff_bind_done.
  destruct (NDEBUG cfg); cbn; [|reflexivity].
  destruct (vtk_at_least cfg 9 3 20240914); reflexivity.
Qed.

Lemma UpdateTheme_throws cfg env :
  theme_probe_returns cfg env = false →
  UpdateTheme cfg env = Thrown std_out_of_range.
Proof.
  unfold theme_probe_returns, UpdateTheme, IsWindowsBuildNumberOrGreater.
  destruct (_WIN32 cfg); cbn; [|discriminate].
  destruct (reg_CurrentBuildNumber env) as [[n| |]|]; cbn; try discriminate.
  reflexivity.
Qed.

Lemma ctor_theme_overflow cfg env opts type offscreen gpa rw t :
  select_render_window cfg type = Done (Some rw, t) →
  theme_probe_returns cfg env = false →
  window_impl_ctor cfg env opts type offscreen gpa = Thrown std_out_of_range.
Proof.
  intros Hsel Hth. unfold window_impl_ctor. rewrite Hsel, eff_bind_done.
  rewrite (UpdateTheme_throws cfg env Hth).
  destruct (setup_opengl_done cfg gpa rw) as (rw' & t' & Hogl & _).
  destruct (NDEBUG cfg); cbn [assert bool_decide decide_rel mret Eff_ret eff_ret];
    rewrite ?eff_bind_done;
    destruct (vtk_at_least cfg 9 3 20240914); rewrite ?Hogl, ?eff_bind_done;
    cbn [deref mret Eff_ret eff_ret]; rewrite ?eff_bind_done;
    destruct (vtk_at_least cfg 9 3 20240606); reflexivity.
Qed.

(** What the branch chain of the constructor yields for a requested type:
    a window when the type is compiled in, an exception for the four types
    with a [throw], a null [RenWin] for the others. *)
Lemma select_by_type cfg t :
  if compiled_in cfg t
  then ∃ rw tr, select_render_window cfg (Some t) = Done (Some rw, tr)
  else if bool_decide (t ∈ throwing_types)
       then ∃ what, select_render_window cfg (Some t)
                    = Thrown (no_window_exception what)
       else select_render_window cfg (Some t) = Done (None, []).
Proof.
  destruct (compiled_in cfg t) eqn:Hin.
  - destruct (select_compiled_in cfg t Hin) as (? & rw & tr & ? & _). eauto.
  - unfold select_render_window.
    destruct t; cbn [compiled_in] in Hin; try discriminate; rewrite ?Hin;
      match goal with
      | |- context [bool_decide ?P] =>
          let v := eval vm_compute in (bool_decide P) in
          change (bool_decide P) with v
      end; cbn; eauto.
Qed.

(** The constructor throws [no_window_exception] exactly when the requested
    type is EXTERNAL, EGL, OSMESA or GLX and that type is not compiled in. *)
Theorem ctor_throws_no_window_iff cfg env opts type offscreen gpa :
  (∃ what, window_impl_ctor cfg env opts type offscreen gpa
           = Thrown (no_window_exception what))
  ↔ ∃ t, type = Some t ∧ t ∈ throwing_types ∧ compiled_in cfg t = false.
Proof.
  split.
  - intros [what Hthrow]. destruct type as [t|].
    + exists t. split; [done|].
      pose proof (select_by_type cfg t) as Hsel.
      destruct (compiled_in cfg t) eqn:Hin.
      * destruct Hsel as (rw & tr & Hsel).
        destruct (theme_probe_returns cfg env) eqn:Hth.
        -- destruct (ctor_completes cfg env opts (Some t) offscreen gpa rw tr
                       Hsel Hth) as (w & t' & Hw & _).
           congruence.
        -- rewrite (ctor_theme_overflow _ _ _ _ _ _ _ _ Hsel Hth) in Hthrow.
           discriminate.
      * case_bool_decide as Hmem; [done|].
        rewrite (ctor_select_null _ _ _ _ _ _ _ Hsel) in Hthrow.
        destruct (NDEBUG cfg); discriminate.
    + exfalso.
      assert (Hsel : select_render_window cfg None
                     = Done (Some (New (default_window_class cfg)), []))
        by reflexivity.
      destruct (theme_probe_returns cfg env) eqn:Hth.
      * destruct (ctor_completes cfg env opts None offscreen gpa _ _ Hsel Hth)
          as (w & t' & Hw & _). congruence.
      * rewrite (ctor_theme_overflow _ _ _ _ _ _ _ _ Hsel Hth) in Hthrow.
        discriminate.
  - intros (t & -> & Hmem & Hin).
    pose proof (select_by_type cfg t) as Hsel. rewrite Hin in Hsel.
    rewrite bool_decide_true in Hsel by done.
    destruct Hsel as [what Hsel]. exists what.
    by apply ctor_select_throws.
Qed.

(** Provided the theme probe comes back, constructing with a requested type
    yields a window exactly when that type is compiled in. *)
Theorem ctor_completes_iff_compiled_in cfg env opts t offscreen gpa :
  theme_probe_returns cfg env = true →
  (∃ w tr, window_impl_ctor cfg env opts (Some t) offscreen gpa = Done (w, tr))
  ↔ compiled_in cfg t = true.
Proof.
  intros Hth. pose proof (select_by_type cfg t) as Hsel. split.
  - intros (w & tr & Hw). destruct (compiled_in cfg t); [done|].
    case_bool_decide.
    + destruct Hsel as [what Hsel].
      rewrite (ctor_select_throws _ _ _ _ _ _ _ Hsel) in Hw. discriminate.
    + rewrite (ctor_select_null _ _ _ _ _ _ _ Hsel) in Hw.
      destruct (NDEBUG cfg); discriminate.
  - intros Hin. rewrite Hin in Hsel. destruct Hsel as (rw & tr & Hsel).
    destruct (ctor_completes cfg env opts (Some t) offscreen gpa rw tr Hsel Hth)
      as (w & t' & Hw & _). eauto.
Qed.

Lemma ctor_completes_iff_compiled_in_witness :
  (∃ w tr, window_impl_ctor linux_build no_registry sample_options (Some EGL)
             true None = Done (w, tr))
  ↔ compiled_in linux_build EGL = true.
Proof. apply ctor_completes_iff_compiled_in. reflexivity. Defined.

(** COCOA, WASM and UNKNOWN have no branch in the constructor: on every
    build a request for one of them leaves [RenWin] null, and construction
    ends on the failed [assert], or on the null dereference under [NDEBUG];
    it neither throws nor yields a window. *)
Theorem ctor_type_without_branch cfg env opts t offscreen gpa :
  t ∈ [COCOA; WASM; UNKNOWN] →
  window_impl_ctor cfg env opts (Some t) offscreen gpa
  = if NDEBUG cfg then NullDereference else AssertionFailed.
Proof.
  intros Hin. apply ctor_select_null with (t := []).
  repeat (apply elem_of_cons in Hin as [->|Hin]); [..|by apply elem_of_nil in Hin];
    reflexivity.
Qed.

Lemma ctor_type_without_branch_witness :
  window_impl_ctor linux_build no_registry sample_options (Some COCOA) false None
  = if NDEBUG linux_build then NullDereference else AssertionFailed.
Proof. apply ctor_type_without_branch. set_solver. Defined.

(** With no type requested the constructor takes VTK's default render
    window: provided the theme probe comes back, it completes on every build
    and the window has the default class. *)
Theorem ctor_unspecified_type cfg env opts offscreen gpa :
  theme_probe_returns cfg env = true →
  ∃ w tr, window_impl_ctor cfg env opts None offscreen gpa = Done (w, tr)
          ∧ rw_class (RenWin w) = default_window_class cfg.
Proof.
  intros Hth.
  destruct (ctor_completes cfg env opts None offscreen gpa
              (New (default_window_class cfg)) [] eq_refl Hth)
    as (w & tr & Hw & Hcls & _).
  eauto.
Qed.

Lemma ctor_unspecified_type_witness :
  ∃ w tr, window_impl_ctor windows_build windows11_dark sample_options None
            false None = Done (w, tr)
          ∧ rw_class (RenWin w) = default_window_class windows_build.
Proof. apply ctor_unspecified_type. reflexivity. Defined.

(** On a Windows build, a registry build number that overflows [std::stoi]
    makes the constructor throw [std::out_of_range], also for a type that is
    compiled in: only [std::invalid_argument] is caught. *)
Theorem ctor_registry_overflow cfg env opts t offscreen gpa :
  _WIN32 cfg = true →
  reg_CurrentBuildNumber env = Some stoi_out_of_range →
  compiled_in cfg t = true →
  window_impl_ctor cfg env opts (Some t) offscreen gpa = Thrown std_out_of_range.
Proof.
  intros Hwin Hreg Hin.
  destruct (select_compiled_in cfg t Hin) as (? & rw & tr & Hsel & _).
  apply ctor_theme_overflow with (rw := rw) (t := tr); [done|].
  unfold theme_probe_returns. by rewrite Hwin, Hreg.
Qed.

Lemma ctor_registry_overflow_witness :
  window_impl_ctor windows_build overflowing_registry sample_options (Some WGL)
    false None = Thrown std_out_of_range.
Proof. apply ctor_registry_overflow; reflexivity. Defined.

(** ** The window the constructor leaves *)

Lemma select_no_renderers cfg type rw t :
  select_render_window cfg type = Done (Some rw, t) → rw_renderers rw = [].
Proof.
  unfold select_render_window.
  destruct type as [[]|];
    repeat match goal with
           | |- context [if ?b then _ else _] => destruct b
           end; cbn; intros [= <- _]; reflexivity.
Qed.

Lemma setup_opengl_renderers cfg gpa renwin rw t :
  setup_opengl cfg gpa renwin = Done (Some rw, t) →
  ∃ rw0, renwin = Some rw0 ∧ rw_renderers rw = rw_renderers rw0
         ∧ rw_class rw = rw_class rw0.
Proof.
  destruct renwin as [rw0|]; [|discriminate].
  destruct (setup_opengl_done cfg gpa rw0) as (rw' & t' & Hogl & Hcls & Hrens).
  rewrite Hogl. intros [= <- _]. eauto.
Qed.

Lemma setup_opengl_configured cfg gpa rw0 :
  ∃ t, (if vtk_at_least cfg 9 3 20240914
        then setup_opengl cfg gpa (Some rw0) else mret (Some rw0))
       = Done (Some (opengl_configured cfg gpa rw0), t).
Proof.
  unfold opengl_configured, setup_opengl, SafeDownCast_OpenGL.
  cbn [mbind option_bind].
  destruct (vtk_at_least cfg 9 3 20240914); cbn [andb]; [|cbn; eauto].
  destruct (IsA (rw_class rw0) "vtkOpenGLRenderWindow"); [|cbn; eauto].
  destruct (bool_decide (is_Some gpa));
    destruct (F3D_MODULE_EXTERNAL_RENDERING cfg);
    destruct (IsA (rw_class rw0) "vtkExternalOpenGLRenderWindow") eqn:E;
    cbn; rewrite ?E; cbn; eauto.
Qed.

(** A constructed window, in closed form. *)
Lemma ctor_window cfg env opts type offscreen gpa w t :
  window_impl_ctor cfg env opts type offscreen gpa = Done (w, t) →
  ∃ rw0 t0,
    select_render_window cfg type = Done (Some rw0, t0)
    ∧ w = {| Camera := {| VTKRenderer := Some InternalsRenderer |};
             RenWin := configured cfg gpa offscreen rw0;
             Renderer := rd_invoke "Initialize" [] NewRenderer;
             Options := opts;
             CachePath := "";
             GetProcAddress := gpa |}.
Proof.
  unfold window_impl_ctor. intros H.
  repeat match type of H with
         | (_ ≫= _) = Done _ =>
             apply eff_bind_inv in H as (? & ? & ? & ? & H & ?)
         end.
  repeat match goal with
         | H : on_renwin _ _ _ = Done _ |- _ =>
             rewrite on_renwin_done in H; injection H as <- <-
         | H : emit _ = Done _ |- _ => injection H as _ <-
         | H : Initialize _ = Done _ |- _ => injection H as <- <-
         end.
  injection H as <- _.
  match goal with
  | Hsel : select_render_window _ _ = Done (?rw, _),
    Hogl : (if vtk_at_least _ _ _ _ then setup_opengl _ _ _ else _) = Done (?rw', _),
    Hderef : deref ?rw' = Done (?rw1, _),
    Htr : (if vtk_at_least _ _ _ _ then on_renwin _ _ _ else _) = Done (?rw2, _)
    |- _ =>
      destruct rw' as [rw1'|]; [|discriminate Hderef];
      injection Hderef as <- _;
      destruct rw as [rw0|];
      [|destruct (vtk_at_least cfg 9 3 20240914); discriminate Hogl];
      destruct (setup_opengl_configured cfg gpa rw0) as [t' Hconf];
      rewrite Hconf in Hogl; injection Hogl as <- _;
      exists rw0; eexists; split; [exact Hsel|];
      unfold configured;
      destruct (vtk_at_least cfg 9 3 20240606);
      [rewrite on_renwin_done in Htr|]; injection Htr as <- _; reflexivity
  end.
Qed.

Lemma select_fresh cfg type rw0 t0 m :
  select_render_window cfg type = Done (Some rw0, t0) →
  m ≠ "AutomaticWindowPositionAndResizeOff" → m ≠ "SetWindowInfo" →
  rw_props rw0 !! m = None.
Proof.
  unfold select_render_window. intros H Hm1 Hm2.
  destruct type as [[]|];
    repeat match type of H with
           | context [if ?b then _ else _] => destruct b
           end; cbn in H; try discriminate; injection H as <- _; cbn;
    rewrite ?lookup_insert_ne by done; apply lookup_empty.
Qed.

Lemma configured_class cfg gpa offscreen rw0 :
  rw_class (configured cfg gpa offscreen rw0) = rw_class rw0.
Proof.
  unfold configured, opengl_configured.
  repeat match goal with
         | |- context [if ?b then _ else _] => destruct b
         end; reflexivity.
Qed.

Lemma configured_renderers cfg gpa offscreen rw0 :
  rw_renderers (configured cfg gpa offscreen rw0)
  = rw_renderers rw0 ++ [InternalsRenderer].
Proof.
  unfold configured, opengl_configured.
  repeat match goal with
         | |- context [if ?b then _ else _] => destruct b
         end; reflexivity.
Qed.

(** Every window the constructor yields has hardware antialiasing off, the
    requested off-screen mode, the title "f3d", the window's renderer as its
    one renderer, a camera bound to that renderer, the given options, an empty
    cache path and an initialised renderer. *)
Theorem ctor_post_state cfg env opts type offscreen gpa w t :
  window_impl_ctor cfg env opts type offscreen gpa = Done (w, t) →
  rw_props (RenWin w) !! "SetMultiSamples" = Some [VInt 0]
  ∧ rw_props (RenWin w) !! "SetOffScreenRendering" = Some [VBool offscreen]
  ∧ rw_props (RenWin w) !! "SetWindowName" = Some [VString "f3d"]
  ∧ rw_renderers (RenWin w) = [InternalsRenderer]
  ∧ VTKRenderer (Camera w) = Some InternalsRenderer
  ∧ Options w = opts
  ∧ CachePath w = ""
  ∧ rd_props (Renderer w) = {["Initialize" := []]}.
Proof.
  intros H. destruct (ctor_window _ _ _ _ _ _ _ _ H) as (rw0 & t0 & Hsel & ->).
  cbn [RenWin Camera Options CachePath Renderer VTKRenderer].
  rewrite configured_renderers, (select_no_renderers _ _ _ _ Hsel).
  split.
  { unfold configured. cbn. rewrite !lookup_insert_ne by done.
    apply lookup_insert_eq. }
  split.
  { unfold configured. cbn. rewrite lookup_insert_ne by done.
    apply lookup_insert_eq. }
  split.
  { unfold configured. cbn. apply lookup_insert_eq. }
  do 4 (split; [reflexivity|]).
  unfold rd_invoke, NewRenderer. cbn. apply insert_empty.
Qed.

Lemma ctor_post_state_witness :
  ∃ w t,
    window_impl_ctor linux_build no_registry sample_options (Some OSMESA) true
      None = Done (w, t)
    ∧ rw_props (RenWin w) !! "SetMultiSamples" = Some [VInt 0]
    ∧ rw_props (RenWin w) !! "SetOffScreenRendering" = Some [VBool true]
    ∧ rw_props (RenWin w) !! "SetWindowName" = Some [VString "f3d"]
    ∧ rw_renderers (RenWin w) = [InternalsRenderer]
    ∧ VTKRenderer (Camera w) = Some InternalsRenderer
    ∧ Options w = sample_options
    ∧ CachePath w = ""
    ∧ rd_props (Renderer w) = {["Initialize" := []]}.
Proof.
  destruct (window_impl_ctor linux_build no_registry sample_options
              (Some OSMESA) true None) as [[w t]| | |] eqn:E;
    [|vm_compute in E; discriminate..].
  exists w, t. split; [reflexivity|].
  exact (ctor_post_state _ _ _ _ _ _ _ _ E).
Defined.

(** The OpenGL symbol loader is installed on the window exactly when VTK is
    at least 9.3.20240914, the window is an OpenGL render window and the
    loader given to the constructor is not empty. *)
Theorem ctor_symbol_loader cfg env opts type offscreen gpa w t :
  window_impl_ctor cfg env opts type offscreen gpa = Done (w, t) →
  rw_props (RenWin w) !! "SetOpenGLSymbolLoader" = Some []
  ↔ vtk_at_least cfg 9 3 20240914 = true
    ∧ IsA (rw_class (RenWin w)) "vtkOpenGLRenderWindow" = true
    ∧ is_Some gpa.
Proof.
  intros H. destruct (ctor_window _ _ _ _ _ _ _ _ H) as (rw0 & t0 & Hsel & ->).
  cbn [RenWin]. rewrite configured_class.
  pose proof (select_fresh cfg type rw0 t0 "SetOpenGLSymbolLoader" Hsel
                ltac:(done) ltac:(done)) as Hfresh.
  unfold configured, opengl_configured.
  destruct (vtk_at_least cfg 9 3 20240914);
    destruct (IsA (rw_class rw0) "vtkOpenGLRenderWindow");
    destruct (vtk_at_least cfg 9 3 20240606);
    destruct (F3D_MODULE_EXTERNAL_RENDERING cfg);
    destruct (IsA (rw_class rw0) "vtkExternalOpenGLRenderWindow");
    case_bool_decide as Hgpa; cbn;
    rewrite ?lookup_insert_ne by done;
    rewrite ?lookup_insert_eq, ?Hfresh; intuition congruence.
Qed.

Lemma ctor_symbol_loader_witness :
  ∃ w t,
    window_impl_ctor linux_build no_registry sample_options (Some GLX) false
      (Some (λ _, 0)) = Done (w, t)
    ∧ (rw_props (RenWin w) !! "SetOpenGLSymbolLoader" = Some []
       ↔ vtk_at_least linux_build 9 3 20240914 = true
         ∧ IsA (rw_class (RenWin w)) "vtkOpenGLRenderWindow" = true
         ∧ is_Some (Some (λ _ : string, 0))).
Proof.
  destruct (window_impl_ctor linux_build no_registry sample_options
              (Some GLX) false (Some (λ _, 0))) as [[w t]| | |] eqn:E;
    [|vm_compute in E; discriminate..].
  exists w, t. split; [reflexivity|].
  exact (ctor_symbol_loader _ _ _ _ _ _ _ _ E).
Defined.

(** ** Rendering to an image, in closed form *)

Lemma UpdateDynamicOptions_synced w :
  ∃ t, UpdateDynamicOptions w = Done (synced w, t).
Proof. rewrite UpdateDynamicOptions_done. eauto. Qed.

Lemma renderToImage_false_run W2I w :
  ∃ t, renderToImage W2I false w
       = Done ((image_from (W2I (RenWin w) (synced_renderer w) VTK_RGB),
                synced w), t).
Proof.
  unfold renderToImage. rewrite UpdateDynamicOptions_done.
  fold (synced_renderer w). fold (synced w). rewrite eff_bind_done. cbn.
  unfold image_from.
  destruct (W2I (RenWin w) (synced_renderer w) VTK_RGB) as [[[d0 d1] d2] cmp sc].
  cbn. eauto.
Qed.

Lemma renderToImage_true_run W2I w :
  rw_renderers (RenWin w) ≠ [] →
  ∃ t, renderToImage W2I true w
       = Done ((image_from
                  (W2I (RenWin w)
                     (rd_invoke "SetBackground" black (synced_renderer w))
                     VTK_RGBA),
                with_Renderer
                  (rd_invoke "SetBackground" black (synced_renderer w)) w), t).
Proof.
  intros Hfirst. unfold renderToImage. rewrite UpdateDynamicOptions_done.
  fold (synced_renderer w). rewrite eff_bind_done.
  unfold GetFirstRenderer. cbn [RenWin with_Renderer].
  destruct (rw_renderers (RenWin w)) as [|[] rest]; [done|]. cbn.
  unfold image_from.
  destruct (W2I (RenWin w) (rd_invoke "SetBackground" black (synced_renderer w))
              VTK_RGBA) as [[[d0 d1] d2] cmp sc].
  cbn. eauto.
Qed.

Lemma renderToImage_true_null W2I w :
  rw_renderers (RenWin w) = [] → renderToImage W2I true w = NullDereference.
Proof.
  intros Hnone. unfold renderToImage. rewrite UpdateDynamicOptions_done.
  rewrite eff_bind_done. unfold GetFirstRenderer. cbn [RenWin with_Renderer].
  rewrite Hnone. reflexivity.
Qed.

(** ** What no call changes *)

Lemma api_step_same_backend w w' : api_step w w' → same_backend w w'.
Proof.
  unfold same_backend. intros Hstep.
  destruct Hstep as
    [ o w | width height w w' t H | screen size x y w w' t H | name w w' t H
    | name w w' t H | w w' t H | cachePath w | w w' t H | w b w' t H
    | W2I noBackground w img w' t H | D2W p w q w' t H | W2D p w q w' t H ].
  - done.
  - injection H as <- _. done.
  - unfold setPosition in H.
    destruct (IsA (rw_class (RenWin w)) "vtkCocoaRenderWindow").
    + destruct (int_sub _ _) as [d|]; [|discriminate]. cbn in H.
      destruct (int_sub d y) as [y'|]; [|discriminate]. cbn in H.
      injection H as <- _. done.
    + injection H as <- _. done.
  - injection H as <- _. done.
  - injection H as <- _. done.
  - injection H as <- _. done.
  - done.
  - rewrite UpdateDynamicOptions_done in H. injection H as <- _. done.
  - unfold render in H. rewrite UpdateDynamicOptions_done, eff_bind_done in H.
    injection H as _ <- _. done.
  - destruct noBackground.
    + destruct (rw_renderers (RenWin w)) as [|r rest] eqn:Hrens.
      * rewrite renderToImage_true_null in H by done. discriminate.
      * destruct (renderToImage_true_run W2I w) as [t' E]; [by rewrite Hrens|].
        rewrite E in H. injection H as _ <- _. done.
    + destruct (renderToImage_false_run W2I w) as [t' E].
      rewrite E in H. injection H as _ <- _. done.
  - unfold getWorldFromDisplay in H.
    rewrite on_renderer_done, eff_bind_done, on_renderer_done, eff_bind_done
      in H.
    destruct (D2W _ p) as [[[x y] z] h].
    destruct (dgt h homogeneousThreshold); injection H as _ <- _; done.
  - unfold getDisplayFromWorld in H. destruct p as [[x y] z].
    injection H as _ <- _. done.
Qed.

Lemma rtc_api_step_same_backend w w' : rtc api_step w w' → same_backend w w'.
Proof.
  induction 1 as [w|w w1 w2 Hstep _ IH]; [done|].
  destruct (api_step_same_backend _ _ Hstep) as (Hc & Hr & Hcam).
  destruct IH as (Hc' & Hr' & Hcam').
  unfold same_backend. by rewrite Hc', Hr', Hcam', Hc, Hr, Hcam.
Qed.

(** A window of the program has the window's renderer as its one
    renderer. *)
Lemma reachable_renderers cfg w :
  reachable cfg w → rw_renderers (RenWin w) = [InternalsRenderer].
Proof.
  intros (env & opts & type & offscreen & gpa & w0 & t & Hctor & Hsteps).
  destruct (rtc_api_step_same_backend _ _ Hsteps) as (_ & -> & _).
  destruct (ctor_window _ _ _ _ _ _ _ _ Hctor) as (rw0 & t0 & Hsel & ->).
  cbn [RenWin]. by rewrite configured_renderers, (select_no_renderers _ _ _ _ Hsel).
Qed.

(** The back end of a window is fixed at construction: whatever is called
    on the window afterwards, and however the host changes the options,
    [getType] keeps reporting the same type. *)
Theorem getType_stable cfg w w' :
  rtc api_step w w' → getType cfg w' = getType cfg w.
Proof.
  intros Hsteps.
  destruct (rtc_api_step_same_backend _ _ Hsteps) as (Hcls & _).
  unfold getType. by rewrite Hcls.
Qed.

Lemma getType_stable_witness :
  getType linux_build
    (synced (SetCachePath "/var/cache/f3d" (sample_window vtkEGLRenderWindow)))
  = getType linux_build (sample_window vtkEGLRenderWindow).
Proof.
  apply getType_stable.
  eapply rtc_l; [apply (step_SetCachePath "/var/cache/f3d")|].
  eapply rtc_l; [|apply rtc_refl].
  eapply step_UpdateDynamicOptions. apply UpdateDynamicOptions_done.
Defined.

(** On every window of the program, [renderToImage] completes, with and
    without background: the first renderer it asks the render window for is
    always there. *)
Theorem renderToImage_completes cfg W2I noBackground w :
  reachable cfg w →
  ∃ img w' t, renderToImage W2I noBackground w = Done ((img, w'), t).
Proof.
  intros Hreach. destruct noBackground.
  - destruct (renderToImage_true_run W2I w) as [t E]; [|eauto].
    by rewrite (reachable_renderers cfg w Hreach).
  - destruct (renderToImage_false_run W2I w) as [t E]. eauto.
Qed.

Lemma renderToImage_completes_witness :
  ∃ w0 t0,
    window_impl_ctor linux_build no_registry sample_options (Some NONE) true None
    = Done (w0, t0)
    ∧ ∃ img w' t, renderToImage one_pixel true w0 = Done ((img, w'), t).
Proof.
  destruct (window_impl_ctor linux_build no_registry sample_options
              (Some NONE) true None) as [[w0 t0]| | |] eqn:E;
    [|vm_compute in E; discriminate..].
  exists w0, t0. split; [reflexivity|].
  apply (renderToImage_completes linux_build).
  exists no_registry, sample_options, (Some NONE), true, None, w0, t0.
  split; [exact E|apply rtc_refl].
Defined.

(** ** The theme probe *)


(** ** The reported type, for any window *)

(** What [getType] reports is backed by the class of the render window and,
    for the platform types, by the build; it never reports EXTERNAL. *)
Theorem getType_sound cfg w :
  let c := rw_class (RenWin w) in
  match getType cfg w with
  | OSMESA => IsA c "vtkOSOpenGLRenderWindow" = true
  | GLX => VTK_USE_X cfg = true ∧ IsA c "vtkXOpenGLRenderWindow" = true
  | WGL => _WIN32 cfg = true ∧ IsA c "vtkWin32OpenGLRenderWindow" = true
  | COCOA => __APPLE__ cfg = true ∧ IsA c "vtkCocoaRenderWindow" = true
  | EGL => VTK_OPENGL_HAS_EGL cfg = true ∧ IsA c "vtkEGLRenderWindow" = true
  | WASM => __EMSCRIPTEN__ cfg = true
            ∧ IsA c "vtkWebAssemblyOpenGLRenderWindow" = true
  | NONE => IsA c "vtkF3DNoRenderWindow" = true
  | UNKNOWN => True
  | EXTERNAL => False
  end.
Proof.
  unfold getType. cbn zeta.
  repeat match goal with
         | |- context [if ?a && ?b then _ else _] =>
             destruct a eqn:?; destruct b eqn:?; cbn [andb]
         | |- context [if ?b then _ else _] => destruct b eqn:?
         end; done.
Qed.

(** ** Rendering and the background *)

(** Without background suppression [renderToImage] leaves the window exactly
    as option synchronisation leaves it, and reads the frame through an RGB
    buffer. *)
Theorem renderToImage_keeps_background W2I w :
  ∃ w1 t1,
    UpdateDynamicOptions w = Done (w1, t1)
    ∧ renderToImage W2I false w
      = Done ((image_from (W2I (RenWin w1) (Renderer w1) VTK_RGB), w1),
              t1 ++ [ Call OnWindowToImageFilter "SetInput" [];
                      Call OnImageExport "SetInputConnection" [];
                      Call OnImageExport "ImageLowerLeftOn" [];
                      Call OnImageExport "GetDataDimensions" [];
                      Call OnImageExport "GetDataNumberOfScalarComponents" [];
                      Call OnImageExport "Export" [] ]).
Proof.
  unfold renderToImage. rewrite UpdateDynamicOptions_done.
  eexists _, _. split; [reflexivity|].
  rewrite eff_bind_done. cbn. unfold image_from.
  destruct (W2I _ _ _) as [[[d0 d1] d2] cmp sc]. reflexivity.
Qed.

(** ** What the renderer holds after synchronisation *)

(** After a list of calls on distinct methods the renderer holds the
    arguments of each of them. *)
Lemma after_calls_lookup cs r m args :
  NoDup cs.*1 → (m, args) ∈ cs →
  rd_props (after_calls cs r) !! m = Some args.
Proof.
  intros Hnd Hin. rewrite after_calls_props. cbn [rd_props].
  apply lookup_union_Some_l, elem_of_list_to_map_1.
  - by rewrite fmap_reverse, reverse_Permutation.
  - by apply elem_of_reverse.
Qed.

(** A method that is not called keeps what the renderer held for it. *)
Lemma after_calls_lookup_other cs r m :
  m ∉ cs.*1 → rd_props (after_calls cs r) !! m = rd_props r !! m.
Proof.
  intros Hnot. rewrite after_calls_props. cbn [rd_props].
  apply lookup_union_r, not_elem_of_list_to_map.
  rewrite fmap_reverse, elem_of_reverse. exact Hnot.
Qed.

(** Calling a method before a list of calls that contains it leaves no
    trace of the earlier call. *)
Lemma after_calls_overwrites cs r m args :
  m ∈ cs.*1 → after_calls cs (rd_invoke m args r) = after_calls cs r.
Proof.
  intros Hin. rewrite !after_calls_props. f_equal.
  unfold rd_invoke. cbn [rd_props]. apply map_eq. intros i.
  rewrite !lookup_union.
  destruct (decide (i = m)) as [->|Hne].
  - destruct (list_to_map (reverse cs) !! m) as [v|] eqn:E.
    + rewrite lookup_insert_eq. by destruct (rd_props r !! m).
    + exfalso. apply not_elem_of_list_to_map in E. apply E.
      rewrite fmap_reverse, elem_of_reverse. exact Hin.
  - by rewrite lookup_insert_ne.
Qed.

(** No renderer method is called twice in one synchronisation. *)
Lemma dynamic_calls_NoDup cachePath opt : NoDup (dynamic_calls cachePath opt).*1.
Proof.
  unfold dynamic_calls.
  destruct (scene_camera_index opt); cbn [bool_decide decide_rel];
    apply (bool_decide_unpack _); vm_compute; reflexivity.
Qed.

Lemma dynamic_calls_background cachePath opt :
  ("SetBackground", VColor (render_background_color opt))
  ∈ dynamic_calls cachePath opt.
Proof.
  unfold dynamic_calls. apply elem_of_app. left.
  repeat first [apply list_elem_of_here | apply list_elem_of_further].
Qed.

Lemma dynamic_calls_cache_path cachePath opt :
  ("SetCachePath", [VString cachePath]) ∈ dynamic_calls cachePath opt.
Proof. unfold dynamic_calls. apply elem_of_app. left. apply list_elem_of_here. Qed.

(** Past the early return, option synchronisation leaves the renderer
    holding the arguments of every call it made: no renderer method is called
    twice, so no value is overridden by a later call. *)
Theorem UpdateDynamicOptions_holds_options w m args :
  IsA (rw_class (RenWin w)) "vtkF3DNoRenderWindow" = false →
  (m, args) ∈ dynamic_calls (CachePath w) (Options w) →
  ∃ w' t, UpdateDynamicOptions w = Done (w', t)
          ∧ rd_props (Renderer w') !! m = Some args.
Proof.
  intros Hwin Hin. rewrite UpdateDynamicOptions_done. eexists _, _.
  split; [reflexivity|]. cbn [Renderer with_Renderer].
  unfold sync_calls. rewrite Hwin.
  apply after_calls_lookup; [apply dynamic_calls_NoDup|exact Hin].
Qed.

Lemma UpdateDynamicOptions_holds_options_witness :
  ∃ w' t,
    UpdateDynamicOptions (sample_window vtkXOpenGLRenderWindow) = Done (w', t)
    ∧ rd_props (Renderer w') !! "SetBackground" = Some (VColor grey).
Proof.
  apply UpdateDynamicOptions_holds_options; [reflexivity|].
  apply (dynamic_calls_background "/tmp/f3d" sample_options).
Defined.

(** The projection is only synchronised when no camera index is set: with
    an index, option synchronisation leaves what the renderer holds for
    [SetUseOrthographicProjection] untouched; without one, it holds the
    option. *)
Theorem UpdateDynamicOptions_orthographic w :
  IsA (rw_class (RenWin w)) "vtkF3DNoRenderWindow" = false →
  ∃ w' t,
    UpdateDynamicOptions w = Done (w', t)
    ∧ rd_props (Renderer w') !! "SetUseOrthographicProjection"
      = match scene_camera_index (Options w) with
        | Some _ => rd_props (Renderer w) !! "SetUseOrthographicProjection"
        | None => Some [VBool (scene_camera_orthographic (Options w))]
        end.
Proof.
  intros Hwin. rewrite UpdateDynamicOptions_done. eexists _, _.
  split; [reflexivity|]. cbn [Renderer with_Renderer].
  unfold sync_calls. rewrite Hwin.
  destruct (scene_camera_index (Options w)) as [index|] eqn:Hindex.
  - apply after_calls_lookup_other. unfold dynamic_calls. rewrite Hindex.
    cbn [bool_decide decide_rel].
    apply (bool_decide_unpack _). vm_compute. reflexivity.
  - apply after_calls_lookup; [apply dynamic_calls_NoDup|].
    unfold dynamic_calls. rewrite Hindex. cbn [bool_decide decide_rel].
    apply elem_of_app. right. apply list_elem_of_here.
Qed.

Lemma UpdateDynamicOptions_orthographic_witness :
  ∃ w' t,
    UpdateDynamicOptions (sample_window vtkXOpenGLRenderWindow) = Done (w', t)
    ∧ rd_props (Renderer w') !! "SetUseOrthographicProjection"
      = match scene_camera_index (Options (sample_window vtkXOpenGLRenderWindow)) with
        | Some _ => rd_props (Renderer (sample_window vtkXOpenGLRenderWindow))
                      !! "SetUseOrthographicProjection"
        | None => Some [VBool (scene_camera_orthographic
                                 (Options (sample_window vtkXOpenGLRenderWindow)))]
        end.
Proof. apply UpdateDynamicOptions_orthographic. reflexivity. Defined.

(** ** The background after a capture *)

(** The black background [renderToImage(true)] sets stays on the renderer
    when the call returns; on a window that is not the "none" window the next
    option synchronisation puts the configured background back, and leaves
    the window exactly as it would have without the capture. *)
Theorem sync_after_capture_restores_background W2I w :
  IsA (rw_class (RenWin w)) "vtkF3DNoRenderWindow" = false →
  rw_renderers (RenWin w) ≠ [] →
  ∃ img w' t w1 t1 t',
    renderToImage W2I true w = Done ((img, w'), t)
    ∧ rd_props (Renderer w') !! "SetBackground" = Some black
    ∧ UpdateDynamicOptions w = Done (w1, t1)
    ∧ UpdateDynamicOptions w' = Done (w1, t')
    ∧ rd_props (Renderer w1) !! "SetBackground"
      = Some (VColor (render_background_color (Options w))).
Proof.
  intros Hwin Hrens.
  destruct (renderToImage_true_run W2I w Hrens) as [t E].
  eexists _, _, t, (synced w), _, _. split; [exact E|].
  split; [apply lookup_insert_eq|].
  split; [apply UpdateDynamicOptions_done|].
  split.
  - rewrite UpdateDynamicOptions_done. unfold synced, synced_renderer.
    change (sync_calls (with_Renderer _ w)) with (sync_calls w).
    cbn [Renderer RenWin CachePath with_Renderer].
    rewrite after_calls_overwrites, after_calls_idemp; [reflexivity|].
    unfold sync_calls. rewrite Hwin.
    apply (list_elem_of_fmap_2 fst _ _ (dynamic_calls_background _ _)).
  - unfold synced, synced_renderer, sync_calls. cbn [Renderer with_Renderer].
    rewrite Hwin.
    apply after_calls_lookup;
      [apply dynamic_calls_NoDup|apply dynamic_calls_background].
Qed.

Lemma sync_after_capture_restores_background_witness :
  ∃ img w' t w1 t1 t',
    renderToImage one_pixel true (sample_window vtkXOpenGLRenderWindow)
    = Done ((img, w'), t)
    ∧ rd_props (Renderer w') !! "SetBackground" = Some black
    ∧ UpdateDynamicOptions (sample_window vtkXOpenGLRenderWindow) = Done (w1, t1)
    ∧ UpdateDynamicOptions w' = Done (w1, t')
    ∧ rd_props (Renderer w1) !! "SetBackground"
      = Some (VColor (render_background_color
                        (Options (sample_window vtkXOpenGLRenderWindow)))).
Proof.
  apply sync_after_capture_restores_background; [reflexivity|discriminate].
Defined.

(** On the "none" window nothing puts the background back: after
    [renderToImage(true)] every later option synchronisation leaves the
    renderer's background black. *)
Theorem none_window_keeps_black_background W2I w :
  IsA (rw_class (RenWin w)) "vtkF3DNoRenderWindow" = true →
  rw_renderers (RenWin w) ≠ [] →
  ∃ img w' t w'' t',
    renderToImage W2I true w = Done ((img, w'), t)
    ∧ UpdateDynamicOptions w' = Done (w'', t')
    ∧ rd_props (Renderer w'') !! "SetBackground" = Some black.
Proof.
  intros Hwin Hrens.
  destruct (renderToImage_true_run W2I w Hrens) as [t E].
  eexists _, _, t, _, _. split; [exact E|].
  split; [apply UpdateDynamicOptions_done|].
  cbn [Renderer with_Renderer]. unfold sync_calls.
  cbn [RenWin with_Renderer]. rewrite Hwin.
  rewrite after_calls_lookup_other.
  - apply lookup_insert_eq.
  - cbn. by intros ?%list_elem_of_singleton.
Qed.

Lemma none_window_keeps_black_background_witness :
  ∃ img w' t w'' t',
    renderToImage one_pixel true (sample_window vtkF3DNoRenderWindow)
    = Done ((img, w'), t)
    ∧ UpdateDynamicOptions w' = Done (w'', t')
    ∧ rd_props (Renderer w'') !! "SetBackground" = Some black.
Proof.
  apply none_window_keeps_black_background; [reflexivity|discriminate].
Defined.

(** ** The cache path *)

(** After [SetCachePath p], option synchronisation on a window that is not
    the "none" window first creates the directory [p], then hands [p] to the
    renderer. *)
Theorem sync_uses_cache_path p w :
  IsA (rw_class (RenWin w)) "vtkF3DNoRenderWindow" = false →
  ∃ w' t,
    UpdateDynamicOptions (SetCachePath p w)
    = Done (w', Call OnSystemTools "MakeDirectory" [VString p]
                :: Call OnRenderer "SetCachePath" [VString p] :: t)
    ∧ rd_props (Renderer w') !! "SetCachePath" = Some [VString p].
Proof.
  intros Hwin. rewrite UpdateDynamicOptions_done.
  unfold sync_calls. cbn [RenWin CachePath Options SetCachePath with_CachePath].
  rewrite Hwin. eexists _, _. split; [reflexivity|].
  cbn [Renderer with_Renderer].
  apply after_calls_lookup;
    [apply dynamic_calls_NoDup|apply dynamic_calls_cache_path].
Qed.

Lemma sync_uses_cache_path_witness :
  ∃ w' t,
    UpdateDynamicOptions
      (SetCachePath "/var/cache/f3d" (sample_window vtkEGLRenderWindow))
    = Done (w', Call OnSystemTools "MakeDirectory" [VString "/var/cache/f3d"]
                :: Call OnRenderer "SetCachePath" [VString "/var/cache/f3d"]
                :: t)
    ∧ rd_props (Renderer w') !! "SetCachePath" = Some [VString "/var/cache/f3d"].
Proof. apply sync_uses_cache_path. reflexivity. Defined.

(** The constructor sets no cache path: rendering a freshly constructed
    window that is not the "none" window asks for a directory with the empty
    name to be created. *)
Theorem fresh_window_empty_cache_path cfg env opts type offscreen gpa w t :
  window_impl_ctor cfg env opts type offscreen gpa = Done (w, t) →
  IsA (rw_class (RenWin w)) "vtkF3DNoRenderWindow" = false →
  ∃ w' t', render w
           = Done ((true, w'),
                   Call OnSystemTools "MakeDirectory" [VString ""] :: t').
Proof.
  intros Hctor Hwin.
  destruct (ctor_window _ _ _ _ _ _ _ _ Hctor) as (rw0 & t0 & _ & Hw).
  assert (Hcache : CachePath w = "") by (by rewrite Hw).
  unfold render. rewrite UpdateDynamicOptions_done, eff_bind_done.
  rewrite Hwin, Hcache. cbn. eauto.
Qed.

Lemma fresh_window_empty_cache_path_witness :
  ∃ w t w' t',
    window_impl_ctor linux_build no_registry sample_options (Some GLX) false None
    = Done (w, t)
    ∧ render w
      = Done ((true, w'),
              Call OnSystemTools "MakeDirectory" [VString ""] :: t').
Proof.
  destruct (window_impl_ctor linux_build no_registry sample_options
              (Some GLX) false None) as [[w t]| | |] eqn:E;
    [|vm_compute in E; discriminate..].
  destruct (fresh_window_empty_cache_path _ _ _ _ _ _ _ _ E) as (w' & t' & H).
  - vm_compute in E. injection E as <- _. reflexivity.
  - exists w, t, w', t'. split; [reflexivity|exact H].
Defined.

(** ** Coordinates *)

(** When the homogeneous coordinate is above the threshold,
    [getWorldFromDisplay] divides the three other coordinates by it, in
    order, and returns the quotients. *)
Theorem getWorldFromDisplay_above_threshold D2W p w :
  dgt (homogeneous (unprojected D2W p w)) homogeneousThreshold = true →
  ∃ w' t,
    getWorldFromDisplay D2W p w
    = Done (((ddiv (unprojected D2W p w).1.1.1 (homogeneous (unprojected D2W p w)),
              ddiv (unprojected D2W p w).1.1.2 (homogeneous (unprojected D2W p w)),
              ddiv (unprojected D2W p w).1.2 (homogeneous (unprojected D2W p w))),
             w'), t)
    ∧ divisors t = [homogeneous (unprojected D2W p w);
                    homogeneous (unprojected D2W p w);
                    homogeneous (unprojected D2W p w)].
Proof.
  unfold unprojected, getWorldFromDisplay. intros Hguard.
  rewrite on_renderer_done, eff_bind_done, on_renderer_done, eff_bind_done.
  destruct (D2W _ p) as [[[x y] z] h]. cbn [homogeneous fst snd] in *.
  rewrite Hguard. cbn. eauto.
Qed.

Lemma getWorldFromDisplay_above_threshold_witness :
  ∃ w' t,
    getWorldFromDisplay (λ _ _, (dzero, done_, done_, done_))
      (done_, done_, dzero) (sample_window vtkXOpenGLRenderWindow)
    = Done (((ddiv dzero done_, ddiv done_ done_, ddiv done_ done_), w'), t)
    ∧ divisors t = [done_; done_; done_].
Proof.
  apply (getWorldFromDisplay_above_threshold (λ _ _, (dzero, done_, done_, done_))).
  reflexivity.
Defined.

(** A homogeneous coordinate that is NaN, zero or negative does not pass the
    guard either: [getWorldFromDisplay] returns the origin and divides
    nothing. *)
Theorem getWorldFromDisplay_degenerate D2W p w :
  match homogeneous (unprojected D2W p w) with
  | S754_nan | S754_zero _ | S754_infinity true | S754_finite true _ _ => True
  | _ => False
  end →
  ∃ w' t, getWorldFromDisplay D2W p w = Done (((dzero, dzero, dzero), w'), t)
          ∧ divisors t = [].
Proof.
  intros Hdeg. apply getWorldFromDisplay_guard_fails.
  destruct (homogeneous (unprojected D2W p w)) as [s|[]| |[] m e];
    try destruct s; done.
Qed.

Lemma getWorldFromDisplay_degenerate_witness :
  ∃ w' t,
    getWorldFromDisplay (λ _ _, (done_, done_, done_, S754_nan))
      (done_, done_, dzero) (sample_window vtkXOpenGLRenderWindow)
    = Done (((dzero, dzero, dzero), w'), t)
    ∧ divisors t = [].
Proof.
  apply (getWorldFromDisplay_degenerate (λ _ _, (done_, done_, done_, S754_nan))).
  exact I.
Defined.

(** Both coordinate conversions complete and leave the window as it was,
    apart from the display and world points they store on the renderer: the
    synchronised settings are not disturbed. *)
Theorem conversions_keep_settings D2W W2D p w m :
  m ∉ conversion_scratch →
  (∃ q w' t, getWorldFromDisplay D2W p w = Done ((q, w'), t)
             ∧ rd_props (Renderer w') !! m = rd_props (Renderer w) !! m
             ∧ with_Renderer (Renderer w) w' = w)
  ∧ (∃ q w' t, getDisplayFromWorld W2D p w = Done ((q, w'), t)
               ∧ rd_props (Renderer w') !! m = rd_props (Renderer w) !! m
               ∧ with_Renderer (Renderer w) w' = w).
Proof.
  unfold conversion_scratch. intros Hm.
  assert (m ≠ "SetDisplayPoint" ∧ m ≠ "DisplayToWorld"
          ∧ m ≠ "SetWorldPoint" ∧ m ≠ "WorldToDisplay") as (H1 & H2 & H3 & H4).
  { repeat split; intros ->; apply Hm; set_solver. }
  split.
  - unfold getWorldFromDisplay.
    rewrite on_renderer_done, eff_bind_done, on_renderer_done, eff_bind_done.
    destruct (D2W _ p) as [[[x y] z] h].
    destruct (dgt h homogeneousThreshold); cbn; eexists _, _, _;
      (split; [reflexivity|]); cbn; unfold rd_invoke; cbn;
      (rewrite !lookup_insert_ne by done); (split; [done|by destruct w]).
  - unfold getDisplayFromWorld. destruct p as [[x y] z]. cbn.
    eexists _, _, _. split; [reflexivity|]. cbn. unfold rd_invoke. cbn.
    rewrite !lookup_insert_ne by done. split; [done|by destruct w].
Qed.

Lemma conversions_keep_settings_witness :
  (∃ q w' t,
     getWorldFromDisplay (λ _ _, (done_, done_, done_, done_))
       (done_, done_, dzero) (sample_window vtkXOpenGLRenderWindow)
     = Done ((q, w'), t)
     ∧ rd_props (Renderer w') !! "SetBackground"
       = rd_props (Renderer (sample_window vtkXOpenGLRenderWindow))
           !! "SetBackground"
     ∧ with_Renderer (Renderer (sample_window vtkXOpenGLRenderWindow)) w'
       = sample_window vtkXOpenGLRenderWindow)
  ∧ (∃ q w' t,
       getDisplayFromWorld (λ _ '(x, y, z, _), (x, y, z))
         (done_, done_, dzero) (sample_window vtkXOpenGLRenderWindow)
       = Done ((q, w'), t)
       ∧ rd_props (Renderer w') !! "SetBackground"
         = rd_props (Renderer (sample_window vtkXOpenGLRenderWindow))
             !! "SetBackground"
       ∧ with_Renderer (Renderer (sample_window vtkXOpenGLRenderWindow)) w'
         = sample_window vtkXOpenGLRenderWindow).
Proof.
  apply (conversions_keep_settings (λ _ _, (done_, done_, done_, done_))
           (λ _ '(x, y, z, _), (x, y, z))).
  vm_compute. intros H.
  repeat (apply elem_of_cons in H as [H|H]; [discriminate H|]).
  by apply elem_of_nil in H.
Defined.

(** ** Window position *)

Lemma select_explicit_not_cocoa cfg t rw tr :
  select_render_window cfg (Some t) = Done (Some rw, tr) →
  IsA (rw_class rw) "vtkCocoaRenderWindow" = false.
Proof.
  unfold select_render_window.
  destruct t;
    repeat match goal with
           | |- context [if ?b then _ else _] => destruct b
           end; cbn; intros [= <- _]; reflexivity.
Qed.

(** A window constructed with an explicit type is never a Cocoa window, so
    [setPosition] hands [x] and [y] to the render window unchanged,
    whatever the screen and window sizes. *)
Theorem setPosition_explicit_type cfg env opts t offscreen gpa w tr screen size x y :
  window_impl_ctor cfg env opts (Some t) offscreen gpa = Done (w, tr) →
  setPosition screen size x y w
  = Some (Done (with_RenWin (rw_invoke "SetPosition" [VInt x; VInt y] (RenWin w)) w,
                [Call OnRenWin "SetPosition" [VInt x; VInt y]])).
Proof.
  intros Hctor.
  destruct (ctor_window _ _ _ _ _ _ _ _ Hctor) as (rw0 & t0 & Hsel & Hw).
  unfold setPosition.
  assert (Hcls : rw_class (RenWin w) = rw_class rw0).
  { rewrite Hw. cbn [RenWin]. apply configured_class. }
  rewrite Hcls, (select_explicit_not_cocoa _ _ _ _ Hsel). reflexivity.
Qed.

Lemma setPosition_explicit_type_witness :
  ∃ w tr,
    window_impl_ctor linux_build no_registry sample_options (Some GLX) false None
    = Done (w, tr)
    ∧ setPosition (λ _, (1920, 1080)) (λ _, (800, 600)) 10 20 w
      = Some (Done (with_RenWin
                      (rw_invoke "SetPosition" [VInt 10; VInt 20] (RenWin w)) w,
                    [Call OnRenWin "SetPosition" [VInt 10; VInt 20]])).
Proof.
  destruct (window_impl_ctor linux_build no_registry sample_options
              (Some GLX) false None) as [[w tr]| | |] eqn:E;
    [|vm_compute in E; discriminate..].
  exists w, tr. split; [reflexivity|].
  exact (setPosition_explicit_type _ _ _ _ _ _ _ _ _ _ _ _ E).
Defined.

(** On a Cocoa window [setPosition] counts [y] from the other edge of the
    screen: the render window gets the screen height minus the window height
    minus [y], as long as neither subtraction leaves the range of [int]. *)
Theorem setPosition_cocoa screen size x y w :
  IsA (rw_class (RenWin w)) "vtkCocoaRenderWindow" = true →
  let H := (screen (RenWin w)).2 in
  let h := (size (RenWin w)).2 in
  if in_int (H - h) && in_int (H - h - y)
  then setPosition screen size x y w
       = Some (Done (with_RenWin
                       (rw_invoke "SetPosition" [VInt x; VInt (H - h - y)]
                          (RenWin w)) w,
                     [Call OnRenWin "SetPosition" [VInt x; VInt (H - h - y)]]))
  else setPosition screen size x y w = None.
Proof.
  intros Hcocoa H h. unfold setPosition. rewrite Hcocoa.
  fold H. fold h. unfold int_sub, in_int. cbn zeta.
  destruct ((INT_MIN <=? H - h) && (H - h <=? INT_MAX)); cbn; [|reflexivity].
  destruct ((INT_MIN <=? H - h - y) && (H - h - y <=? INT_MAX)); reflexivity.
Qed.

Lemma setPosition_cocoa_witness :
  let H := ((λ _ : render_window, (1920, 1080)) (RenWin (sample_window vtkCocoaRenderWindow))).2 in
  let h := ((λ _ : render_window, (800, 600)) (RenWin (sample_window vtkCocoaRenderWindow))).2 in
  if in_int (H - h) && in_int (H - h - 20)
  then setPosition (λ _, (1920, 1080)) (λ _, (800, 600)) 10 20
         (sample_window vtkCocoaRenderWindow)
       = Some (Done (with_RenWin
                       (rw_invoke "SetPosition" [VInt 10; VInt (H - h - 20)]
                          (RenWin (sample_window vtkCocoaRenderWindow)))
                       (sample_window vtkCocoaRenderWindow),
                     [Call OnRenWin "SetPosition" [VInt 10; VInt (H - h - 20)]]))
  else setPosition (λ _, (1920, 1080)) (λ _, (800, 600)) 10 20
         (sample_window vtkCocoaRenderWindow) = None.
Proof.
  apply (setPosition_cocoa (λ _, (1920, 1080)) (λ _, (800, 600)) 10 20).
  reflexivity.
Defined.

(** ** Command-line options *)

(** [InitializeFromArgs] never writes to the standard error: the help text
    and the parse error message go to the standard output, and a call that
    returns has written nothing. *)
Theorem InitializeFromArgs_output parse help this argv :
  cerr (InitializeFromArgs parse help this argv) = []
  ∧ (length argv = 1%nat →
     cout (InitializeFromArgs parse help this argv) = [help])
  ∧ (∀ what bound, (1 < length argv)%nat →
       parse this argv = parse_throws what bound →
       cout (InitializeFromArgs parse help this argv)
       = ["error parsing options: " +:+ what])
  ∧ (∀ r, outcome (InitializeFromArgs parse help this argv) = Returns r →
          cout (InitializeFromArgs parse help this argv) = []).
Proof.
  unfold InitializeFromArgs.
  destruct argv as [|prog [|arg rest]]; cbn.
  - repeat split; intros; try done; lia.
  - repeat split; intros; try done; lia.
  - rewrite bool_decide_false by done.
    destruct (parse this (prog :: arg :: rest)) as [what bound|bound count input].
    + cbn. repeat split; intros; try done. congruence.
    + case_bool_decide; [|destruct input]; cbn; repeat split; intros;
        try done; discriminate.
Qed.
